(** * The training driver of the GPT repository ([train.py])

    A shallow embedding of [main]: argument validation, the distributed
    set-up, the choice of the autocast dtype, checkpoint resumption, the
    gradient-accumulation loop of an epoch, the epoch report, the evaluation
    pass and checkpoint saving.

    Python integers are [Z] (with Python's floor division and modulo, which
    raise on a zero divisor), Python floats are binary64 primitive floats,
    exceptions are values of [Py.exn].  The tensors, the model, the optimizer,
    the metric and the data loaders belong to libraries and to modules outside
    [train.py]; they are the fields of the [Torch] interface, and every call
    [main] makes on them is recorded in a log of events. *)

From Stdlib Require Import ZArith List String Ascii Bool Lia.
From Stdlib Require Import PrimFloat FloatOps SpecFloat DecimalString.
Import ListNotations.

Open Scope Z_scope.

(** ** Python primitives used by [train.py] *)

Module Py.

(** The exceptions [main] raises itself or lets escape.  The message of an
    exception [main] raises is the f-string template of the source,
    placeholders left as written; that of one a library raises is the
    opening of the library's message. *)
Inductive exn : Type :=
| ValueError (msg : string)
| RuntimeError (msg : string)
| ZeroDivisionError
| FileNotFoundError.

Definition result (A : Type) : Type := (exn + A)%type.

(** [a // b] on [int]: floor division, as [Z.div]. *)
Definition floordiv (a b : Z) : result Z :=
  if b =? 0 then inl ZeroDivisionError else inr (a / b).

(** [a % b] on [int]: the sign follows the divisor, as [Z.modulo]. *)
Definition mod_ (a b : Z) : result Z :=
  if b =? 0 then inl ZeroDivisionError else inr (a mod b).

(** [float(n)]: the nearest binary64 value.  (Beyond the binary64 range
    Python raises [OverflowError]; the counters converted here are bounded
    by the number of batches of an epoch.) *)
Definition float_of_int (n : Z) : float :=
  SF2Prim (binary_normalize prec emax n 0 false).

(** [x / n] for a [float] [x] and an [int] [n]. *)
Definition truediv (x : float) (n : Z) : result float :=
  if n =? 0 then inl ZeroDivisionError
  else inr (PrimFloat.div x (float_of_int n)).

(** [needle in hay] on [str]. *)
Fixpoint contains (needle hay : string) : bool :=
  String.prefix needle hay ||
  match hay with
  | EmptyString => false
  | String _ rest => contains needle rest
  end.

(** [str(n)] for an [int], as interpolated by an f-string. *)
Definition str (n : Z) : string := NilZero.string_of_int (Z.to_int n).

(** Truthiness of an optional [int] ([if args.seed:]). *)
Definition truthy (o : option Z) : bool :=
  match o with
  | Some n => negb (n =? 0)
  | None => false
  end.

End Py.

Import Py.

(** ** Process environment and command line *)

(** What the launcher and the machine provide: the three environment
    variables read at import time (absent ones default to [-1]) and the two
    capability queries of [torch.cuda]. *)
Record Env : Type := {
  RANK : Z;
  LOCAL_RANK : Z;
  WORLD_SIZE : Z;
  cuda_is_available : bool;
  is_bf16_supported : bool
}.

Definition IS_DDP (env : Env) : bool := 0 <=? RANK env.

Definition IS_MASTER (env : Env) : bool := (RANK env =? 0) || negb (IS_DDP env).

Definition DDP_BACKEND : string := "nccl".

(** The namespace returned by [parser.parse_args()]. *)
Record Args : Type := {
  batch_size : Z;
  gradient_accumulation_steps : Z;
  max_samples_per_epoch : Z;
  learning_rate : float;
  dropout : float;
  max_gradient_norm : float;
  num_epochs : Z;
  eval_epochs : Z;
  block_size : Z;
  embedding_dimensions : Z;
  num_attention_heads : Z;
  num_hidden_layers : Z;
  checkpoint_epochs : Z;
  checkpoint_path : string;
  dataset_path : string;
  num_dataset_processes : Z;
  resume : bool;
  device : string;
  seed : option Z
}.

(** The defaults of the argument parser ([5e-4] and [0.1] as the binary64
    values Python reads them as). *)
Definition default_args : Args := {|
  batch_size := 4;
  gradient_accumulation_steps := 32;
  max_samples_per_epoch := 4096;
  learning_rate := 0x1.0624dd2f1a9fcp-11%float;
  dropout := 0x1.999999999999ap-4%float;
  max_gradient_norm := 1%float;
  num_epochs := 1000;
  eval_epochs := 10;
  block_size := 1024;
  embedding_dimensions := 768;
  num_attention_heads := 12;
  num_hidden_layers := 12;
  checkpoint_epochs := 20;
  checkpoint_path := "./out/checkpoint.pt";
  dataset_path := "./dataset";
  num_dataset_processes := 4;
  resume := false;
  device := "cuda";
  seed := None
|}.

(** The three assignments [main] makes to [args]. *)
Definition set_device (a : Args) (d : string) : Args := {|
  batch_size := batch_size a;
  gradient_accumulation_steps := gradient_accumulation_steps a;
  max_samples_per_epoch := max_samples_per_epoch a;
  learning_rate := learning_rate a;
  dropout := dropout a;
  max_gradient_norm := max_gradient_norm a;
  num_epochs := num_epochs a;
  eval_epochs := eval_epochs a;
  block_size := block_size a;
  embedding_dimensions := embedding_dimensions a;
  num_attention_heads := num_attention_heads a;
  num_hidden_layers := num_hidden_layers a;
  checkpoint_epochs := checkpoint_epochs a;
  checkpoint_path := checkpoint_path a;
  dataset_path := dataset_path a;
  num_dataset_processes := num_dataset_processes a;
  resume := resume a;
  device := d;
  seed := seed a
|}.

Definition set_gradient_accumulation_steps (a : Args) (n : Z) : Args := {|
  batch_size := batch_size a;
  gradient_accumulation_steps := n;
  max_samples_per_epoch := max_samples_per_epoch a;
  learning_rate := learning_rate a;
  dropout := dropout a;
  max_gradient_norm := max_gradient_norm a;
  num_epochs := num_epochs a;
  eval_epochs := eval_epochs a;
  block_size := block_size a;
  embedding_dimensions := embedding_dimensions a;
  num_attention_heads := num_attention_heads a;
  num_hidden_layers := num_hidden_layers a;
  checkpoint_epochs := checkpoint_epochs a;
  checkpoint_path := checkpoint_path a;
  dataset_path := dataset_path a;
  num_dataset_processes := num_dataset_processes a;
  resume := resume a;
  device := device a;
  seed := seed a
|}.

Definition set_seed (a : Args) (s : option Z) : Args := {|
  batch_size := batch_size a;
  gradient_accumulation_steps := gradient_accumulation_steps a;
  max_samples_per_epoch := max_samples_per_epoch a;
  learning_rate := learning_rate a;
  dropout := dropout a;
  max_gradient_norm := max_gradient_norm a;
  num_epochs := num_epochs a;
  eval_epochs := eval_epochs a;
  block_size := block_size a;
  embedding_dimensions := embedding_dimensions a;
  num_attention_heads := num_attention_heads a;
  num_hidden_layers := num_hidden_layers a;
  checkpoint_epochs := checkpoint_epochs a;
  checkpoint_path := checkpoint_path a;
  dataset_path := dataset_path a;
  num_dataset_processes := num_dataset_processes a;
  resume := resume a;
  device := device a;
  seed := s
|}.

(** ** Start-up: validation (lines 61-88) *)

Definition validate_args (a : Args) : result unit :=
  if batch_size a <? 1 then
    inl (ValueError "Batch size must be greater than 0, {args.batch_size} given.")
  else if gradient_accumulation_steps a <? 1 then
    inl (ValueError "Gradient accumulation steps must be greater than 0, {args.gradient_accumulation_steps} given.")
  else if PrimFloat.ltb (learning_rate a) 0%float then
    inl (ValueError "Learning rate must be a positive value, {args.learning_rate} given.")
  else if num_epochs a <? 1 then
    inl (ValueError "Must train for at least 1 epoch, {args.num_epochs} given.")
  else if eval_epochs a <? 1 then
    inl (ValueError "Eval epochs must be greater than 0, {args.eval_epochs} given.")
  else if checkpoint_epochs a <? 1 then
    inl (ValueError "Checkpoint epochs must be greater than 0, {args.checkpoint_epochs} given.")
  else inr tt.

Definition check_device (env : Env) (a : Args) : result unit :=
  if contains "cuda" (device a) && negb (cuda_is_available env)
  then inl (RuntimeError "Cuda is not available.")
  else inr tt.

(** ** Start-up: the distributed set-up (lines 92-107) *)

(** The calls and warnings of the start-up phase, in order. *)
Inductive setup_event : Type :=
| InitProcessGroup (backend : string) (world_size : Z)
| SetDevice (dev : string)
| Warn (msg : string)
| ManualSeed (s : Z).

Definition divisibility_warning : setup_event :=
  Warn "Gradient accumulation steps does not divide equally into the world size.".

(** The events emitted so far come back with the result, also when a
    division raises. *)
Definition ddp_setup (env : Env) (a : Args) : list setup_event * result Args :=
  if IS_DDP env then
    let a := set_device a ("cuda:" ++ str (LOCAL_RANK env)) in
    let ev := [InitProcessGroup DDP_BACKEND (WORLD_SIZE env); SetDevice (device a)] in
    match mod_ (gradient_accumulation_steps a) (WORLD_SIZE env) with
    | inl e => (ev, inl e)
    | inr r =>
        let ev := if negb (r =? 0) then ev ++ [divisibility_warning] else ev in
        match floordiv (gradient_accumulation_steps a) (WORLD_SIZE env) with
        | inl e => (ev, inl e)
        | inr q =>
            let a := set_gradient_accumulation_steps a q in
            let a :=
              if truthy (seed a)
              then set_seed a (option_map (fun s => s + RANK env) (seed a))
              else a in
            (ev, inr a)
        end
    end
  else ([], inr a).

(** ** The precision policy (lines 109-115) *)

Inductive Dtype : Type := bfloat16 | float32.

Record Autocast : Type := {
  device_type : string;
  autocast_dtype : Dtype
}.

Definition dtype (env : Env) (a : Args) : Dtype :=
  if String.eqb (device a) "cuda" && is_bf16_supported env
  then bfloat16 else float32.

Definition forward_context (env : Env) (a : Args) : Autocast :=
  {| device_type := device a; autocast_dtype := dtype env a |}.

(** Seeding (lines 117-119). *)
Definition seeding (a : Args) : list setup_event :=
  if truthy (seed a)
  then match seed a with Some s => [ManualSeed s] | None => [] end
  else [].

(** ** The libraries behind [main] *)

(** The keyword arguments [GPT] is built from (lines 140-147). *)
Record ModelArgs : Type := {
  ma_vocabulary_size : Z;
  ma_block_size : Z;
  ma_embedding_dimensions : Z;
  ma_num_heads : Z;
  ma_num_layers : Z;
  ma_dropout : float
}.

(** What [main] consumes from [torch], [torchmetrics], [model] and [data].
    A [GPT] value is the module with its parameters and their gradients; the
    two mode flags a forward pass depends on ([model.training] and the
    autograd switch) are passed to it explicitly.  [load_state_dict] returns
    [None] where the library raises for a state that does not fit the live
    object. *)
Class Torch : Type := {
  Tensor : Type;
  Input : Type;
  Target : Type;
  Logits : Type;
  GPT : Type;
  AdamW : Type;
  Perplexity : Type;
  ModelState : Type;
  OptimizerState : Type;

  VOCABULARY_SIZE : Z;
  train_loader : Args -> Z -> list (Input * Target);
  test_loader : Args -> Z -> list (Input * Target);

  GPT_init : ModelArgs -> string -> GPT;
  AdamW_init : GPT -> float -> AdamW;
  Perplexity_init : string -> Perplexity;
  compile : GPT -> GPT;
  DistributedDataParallel : GPT -> Z -> GPT;

  model_call : GPT -> bool -> bool -> Autocast -> Input -> Target -> Logits * Tensor;
  model_call_no_target : GPT -> bool -> bool -> Autocast -> Input -> Logits;
  tensor_div : Tensor -> Z -> Tensor;
  item : Tensor -> float;
  backward : GPT -> Tensor -> bool -> GPT;
  clip_grad_norm_ : GPT -> float -> GPT * Tensor;
  optimizer_step : AdamW -> GPT -> AdamW * GPT;
  zero_grad : AdamW -> GPT -> GPT;

  model_state_dict : GPT -> ModelState;
  model_load_state_dict : GPT -> ModelState -> option GPT;
  optimizer_state_dict : AdamW -> OptimizerState;
  optimizer_load_state_dict : AdamW -> OptimizerState -> option AdamW;

  metric_update : Perplexity -> Logits -> Target -> Perplexity;
  metric_compute : Perplexity -> Tensor;
  metric_reset : Perplexity -> Perplexity
}.

Section Train.

Context {T : Torch}.

(** The dictionary written by [torch.save] (lines 247-251). *)
Record Checkpoint : Type := {
  ck_model : ModelState;
  ck_optimizer : OptimizerState;
  ck_model_args : ModelArgs
}.

(** Checkpoint files by path; [None] where no file exists. *)
Definition Files : Type := string -> option Checkpoint.

Definition write_file (fs : Files) (p : string) (c : Checkpoint) : Files :=
  fun q => if String.eqb q p then Some c else fs q.

(** Every call [main] makes on a library, and every line it prints. *)
Inductive event : Type :=
| Setup (e : setup_event)
| Print (line : string)
| PrintEpoch (epoch : Z) (average_cross_entropy average_gradient_norm : float)
| PrintPerplexity (average_perplexity : float)
| Forward (ctx : Autocast) (training grad : bool)
| Backward (loss : Tensor) (no_sync : bool)
| ClipGradNorm (max_norm : float)
| OptimizerStep
| ZeroGrad
| MetricUpdate
| MetricCompute
| MetricReset
| Save (path : string)
| DestroyProcessGroup.

(** The mutable objects of a run. *)
Record world : Type := {
  model : GPT;
  optimizer : AdamW;
  perplexity_metric : Perplexity;
  training : bool;
  grad_enabled : bool;
  files : Files;
  log : list event
}.

Definition with_model (w : world) (m : GPT) : world :=
  {| model := m; optimizer := optimizer w;
     perplexity_metric := perplexity_metric w; training := training w;
     grad_enabled := grad_enabled w; files := files w; log := log w |}.

Definition with_optimizer (w : world) (o : AdamW) : world :=
  {| model := model w; optimizer := o;
     perplexity_metric := perplexity_metric w; training := training w;
     grad_enabled := grad_enabled w; files := files w; log := log w |}.

Definition with_metric (w : world) (p : Perplexity) : world :=
  {| model := model w; optimizer := optimizer w;
     perplexity_metric := p; training := training w;
     grad_enabled := grad_enabled w; files := files w; log := log w |}.

Definition with_training (w : world) (b : bool) : world :=
  {| model := model w; optimizer := optimizer w;
     perplexity_metric := perplexity_metric w; training := b;
     grad_enabled := grad_enabled w; files := files w; log := log w |}.

Definition with_grad_enabled (w : world) (b : bool) : world :=
  {| model := model w; optimizer := optimizer w;
     perplexity_metric := perplexity_metric w; training := training w;
     grad_enabled := b; files := files w; log := log w |}.

Definition with_files (w : world) (fs : Files) : world :=
  {| model := model w; optimizer := optimizer w;
     perplexity_metric := perplexity_metric w; training := training w;
     grad_enabled := grad_enabled w; files := fs; log := log w |}.

Definition emit (w : world) (e : event) : world :=
  {| model := model w; optimizer := optimizer w;
     perplexity_metric := perplexity_metric w; training := training w;
     grad_enabled := grad_enabled w; files := files w; log := log w ++ [e] |}.

(** *** Statements that may raise, over the world *)

Inductive outcome (A : Type) : Type :=
| Ok (a : A) (w : world)
| Raise (e : exn) (w : world).

Arguments Ok {A} a w.
Arguments Raise {A} e w.

Definition M (A : Type) : Type := world -> outcome A.

Definition ret {A} (a : A) : M A := fun w => Ok a w.

Definition bind {A B} (m : M A) (k : A -> M B) : M B :=
  fun w => match m w with
           | Ok a w' => k a w'
           | Raise e w' => Raise e w'
           end.

Definition lift {A} (r : result A) : M A :=
  fun w => match r with inl e => Raise e w | inr a => Ok a w end.

Definition update (f : world -> world) : M unit := fun w => Ok tt (f w).

Definition say (e : event) : M unit := update (fun w => emit w e).

Definition when (b : bool) (m : M unit) : M unit := if b then m else ret tt.

End Train.

Arguments Ok {T A} a w.
Arguments Raise {T A} e w.

Notation "x <- m ;; k" := (bind m (fun x => k))
  (at level 61, m at next level, right associativity).
Notation "m ;;; k" := (bind m (fun _ => k))
  (at level 61, right associativity).

(** ** The run, after start-up *)

Section Run.

Context {T : Torch}.
Variable env : Env.

(** [a] is [args] as the start-up phase left it. *)
Variable a : Args.

Definition model_args : ModelArgs := {|
  ma_vocabulary_size := VOCABULARY_SIZE;
  ma_block_size := block_size a;
  ma_embedding_dimensions := embedding_dimensions a;
  ma_num_heads := num_attention_heads a;
  ma_num_layers := num_hidden_layers a;
  ma_dropout := dropout a
|}.

(** *** Resuming (lines 160-168) *)

Definition torch_load (p : string) : M Checkpoint :=
  fun w => match files w p with
           | Some c => Ok c w
           | None => Raise FileNotFoundError w
           end.

Definition load_model (s : ModelState) : M unit :=
  fun w => match model_load_state_dict (model w) s with
           | Some m => Ok tt (with_model w m)
           | None => Raise (RuntimeError "Error(s) in loading state_dict") w
           end.

Definition load_optimizer (s : OptimizerState) : M unit :=
  fun w => match optimizer_load_state_dict (optimizer w) s with
           | Some o => Ok tt (with_optimizer w o)
           | None =>
               Raise (ValueError "loaded state dict has a different number of parameter groups") w
           end.

Definition resume_checkpoint : M unit :=
  when (resume a)
    (checkpoint <- torch_load (checkpoint_path a) ;;
     load_model (ck_model checkpoint) ;;;
     load_optimizer (ck_optimizer checkpoint) ;;;
     say (Print "Previous checkpoint resumed successfully")).

(** *** One epoch of training (lines 181-223) *)

Record Totals : Type := {
  total_cross_entropy : float;
  total_gradient_norm : float;
  total_batches : Z;
  total_steps : Z
}.

Definition totals0 : Totals :=
  {| total_cross_entropy := 0%float; total_gradient_norm := 0%float;
     total_batches := 0; total_steps := 0 |}.

(** [with forward_context: y_pred, loss = model(x, y)] *)
Definition forward_train (x : Input) (y : Target) : M Tensor :=
  fun w =>
    let ctx := forward_context env a in
    Ok (snd (model_call (model w) (training w) (grad_enabled w) ctx x y))
       (emit w (Forward ctx (training w) (grad_enabled w))).

(** The condition under which [loss.backward()] runs inside
    [model.no_sync()] (line 197). *)
Definition no_sync (step : Z) : bool :=
  IS_DDP env && negb (step =? gradient_accumulation_steps a).

Definition loss_backward (loss : Tensor) (suppress : bool) : M unit :=
  update (fun w => emit (with_model w (backward (model w) loss (negb suppress)))
                        (Backward loss suppress)).

Definition clip_gradients : M Tensor :=
  fun w =>
    let (m, norm) := clip_grad_norm_ (model w) (max_gradient_norm a) in
    Ok norm (emit (with_model w m) (ClipGradNorm (max_gradient_norm a))).

Definition step_optimizer : M unit :=
  update (fun w =>
    let (o, m) := optimizer_step (optimizer w) (model w) in
    emit (with_optimizer (with_model w m) o) OptimizerStep).

Definition zero_gradients : M unit :=
  update (fun w => emit (with_model w (zero_grad (optimizer w) (model w))) ZeroGrad).

(** The body of the inner [for] (lines 187-214). *)
Definition train_batch (step : Z) (xy : Input * Target) (t : Totals) : M Totals :=
  loss <- forward_train (fst xy) (snd xy) ;;
  let loss := tensor_div loss (gradient_accumulation_steps a) in
  loss_backward loss (no_sync step) ;;;
  let total_cross_entropy := PrimFloat.add (total_cross_entropy t) (item loss) in
  r <- lift (mod_ step (gradient_accumulation_steps a)) ;;
  if r =? 0 then
    norm <- clip_gradients ;;
    step_optimizer ;;;
    zero_gradients ;;;
    ret {| total_cross_entropy := total_cross_entropy;
           total_gradient_norm := PrimFloat.add (total_gradient_norm t) (item norm);
           total_batches := total_batches t + 1;
           total_steps := total_steps t + 1 |}
  else
    ret {| total_cross_entropy := total_cross_entropy;
           total_gradient_norm := total_gradient_norm t;
           total_batches := total_batches t + 1;
           total_steps := total_steps t |}.

(** [for step, (x, y) in enumerate(..., start=1)], from [step] on. *)
Fixpoint train_batches (step : Z) (batches : list (Input * Target)) (t : Totals)
  : M Totals :=
  match batches with
  | [] => ret t
  | xy :: rest =>
      t' <- train_batch step xy t ;;
      train_batches (step + 1) rest t'
  end.

(** Lines 216-223. *)
Definition report (epoch : Z) (t : Totals) : M unit :=
  average_cross_entropy <- lift (truediv (total_cross_entropy t) (total_batches t)) ;;
  average_gradient_norm <- lift (truediv (total_gradient_norm t) (total_steps t)) ;;
  say (PrintEpoch epoch average_cross_entropy average_gradient_norm).

Definition train_epoch (epoch : Z) : M unit :=
  t <- train_batches 1 (train_loader a epoch) totals0 ;;
  report epoch t.

(** *** Evaluation (lines 226-244) *)

(** The body of the test loop: the forward pass and the metric update both
    sit inside [torch.no_grad()], which restores the previous switch on
    exit. *)
Definition eval_batch (xy : Input * Target) : M unit :=
  fun w =>
    let previous := grad_enabled w in
    let w := with_grad_enabled w false in
    let ctx := forward_context env a in
    let y_pred :=
      model_call_no_target (model w) (training w) (grad_enabled w) ctx (fst xy) in
    let w := emit w (Forward ctx (training w) (grad_enabled w)) in
    let w := emit (with_metric w (metric_update (perplexity_metric w) y_pred (snd xy)))
                  MetricUpdate in
    Ok tt (with_grad_enabled w previous).

Fixpoint eval_batches (batches : list (Input * Target)) : M unit :=
  match batches with
  | [] => ret tt
  | xy :: rest => eval_batch xy ;;; eval_batches rest
  end.

Definition evaluate (epoch : Z) : M unit :=
  update (fun w => with_training w false) ;;;
  eval_batches (test_loader a epoch) ;;;
  (fun w =>
     Ok tt (emit (emit w MetricCompute)
                 (PrintPerplexity (item (metric_compute (perplexity_metric w)))))) ;;;
  update (fun w => emit (with_metric w (metric_reset (perplexity_metric w))) MetricReset) ;;;
  update (fun w => with_training w true).

(** *** Checkpointing (lines 246-255) *)

Definition save_checkpoint : M unit :=
  update (fun w =>
    let checkpoint :=
      {| ck_model := model_state_dict (model w);
         ck_optimizer := optimizer_state_dict (optimizer w);
         ck_model_args := model_args |} in
    emit (with_files w (write_file (files w) (checkpoint_path a) checkpoint))
         (Save (checkpoint_path a))) ;;;
  say (Print "Checkpoint saved").

(** *** The epochs (lines 180-255) *)

Definition epoch_body (epoch : Z) : M unit :=
  train_epoch epoch ;;;
  r <- lift (mod_ epoch (eval_epochs a)) ;;
  when ((r =? 0) && IS_MASTER env) (evaluate epoch) ;;;
  r <- lift (mod_ epoch (checkpoint_epochs a)) ;;
  when ((r =? 0) && IS_MASTER env) save_checkpoint.

Fixpoint epochs (l : list Z) : M unit :=
  match l with
  | [] => ret tt
  | epoch :: rest => epoch_body epoch ;;; epochs rest
  end.

(** [range(1, n + 1)] *)
Definition range1 (n : Z) : list Z := map Z.of_nat (seq 1 (Z.to_nat n)).

(** Lines 155-258. *)
Definition run : M unit :=
  say (Print "Compiling model") ;;;
  update (fun w => with_model w (compile (model w))) ;;;
  say (Print "Model has {model.num_trainable_params:,} trainable parameters") ;;;
  resume_checkpoint ;;;
  when (IS_DDP env)
    (update (fun w => with_model w (DistributedDataParallel (model w) (LOCAL_RANK env)))) ;;;
  update (fun w => with_training w true) ;;;
  say (Print "Training ...") ;;;
  epochs (range1 (num_epochs a)) ;;;
  when (IS_DDP env) (say DestroyProcessGroup).

(** The objects built on lines 137-153, with the files found on disk and the
    start-up events so far. *)
Definition construct (fs : Files) (ev : list setup_event) : world :=
  let m := GPT_init model_args (device a) in
  {| model := m;
     optimizer := AdamW_init m (learning_rate a);
     perplexity_metric := Perplexity_init (device a);
     training := true;
     grad_enabled := true;
     files := fs;
     log := map Setup ev |}.

End Run.

(** ** [main] *)

Section Main.

Context {T : Torch}.

(** How a process ends: all epochs done, or an exception escaped. *)
Inductive ending : Type :=
| Completed (w : world)
| Crashed (e : exn) (trace : list event).

Definition main (env : Env) (args : Args) (fs : Files) : ending :=
  match validate_args args with
  | inl e => Crashed e []
  | inr _ =>
      match check_device env args with
      | inl e => Crashed e []
      | inr _ =>
          match ddp_setup env args with
          | (ev, inl e) => Crashed e (map Setup ev)
          | (ev, inr args) =>
              let w := construct args fs (ev ++ seeding args) in
              match run env args w with
              | Ok _ w' => Completed w'
              | Raise e w' => Crashed e (log w')
              end
          end
      end
  end.

End Main.

(** ** A small instance of the interface, to run the definitions on *)

Module Toy.

(** The model is a pair (weights, pending micro-batch gradients); every
    loss is [1.0]; the optimizer counts its steps and the metric its
    updates; a state dictionary is a number, and one below zero does not
    fit.  An epoch has [max_samples_per_epoch // batch_size] training
    batches and two test batches. *)
#[local] Instance torch : Torch := {|
  Tensor := float;
  Input := Z;
  Target := Z;
  Logits := Z;
  GPT := Z * Z;
  AdamW := Z;
  Perplexity := Z;
  ModelState := Z;
  OptimizerState := Z;
  VOCABULARY_SIZE := 50257;
  train_loader := fun a epoch =>
    repeat (epoch, epoch) (Z.to_nat (max_samples_per_epoch a / batch_size a));
  test_loader := fun _ epoch => [(epoch, 0); (epoch, 1)];
  GPT_init := fun _ _ => (0, 0);
  AdamW_init := fun _ _ => 0;
  Perplexity_init := fun _ => 0;
  compile := fun m => m;
  DistributedDataParallel := fun m _ => m;
  model_call := fun _ _ _ _ x _ => (x, 1%float);
  model_call_no_target := fun _ _ _ _ x => x;
  tensor_div := fun t n => PrimFloat.div t (float_of_int n);
  item := fun t => t;
  backward := fun m _ _ => (fst m, snd m + 1);
  clip_grad_norm_ := fun m max_norm => (m, max_norm);
  optimizer_step := fun o m => (o + 1, (fst m + snd m, snd m));
  zero_grad := fun _ m => (fst m, 0);
  model_state_dict := fun m => fst m;
  model_load_state_dict := fun m s => if s <? 0 then None else Some (s, snd m);
  optimizer_state_dict := fun o => o;
  optimizer_load_state_dict := fun _ s => if s <? 0 then None else Some s;
  metric_update := fun p _ _ => p + 1;
  metric_compute := fun p => float_of_int p;
  metric_reset := fun _ => 0
|}.

Definition no_files : Files := fun _ => None.

(** A single process on a machine with CUDA and bf16. *)
Definition single : Env :=
  {| RANK := -1; LOCAL_RANK := -1; WORLD_SIZE := -1;
     cuda_is_available := true; is_bf16_supported := true |}.

(** Worker [rank] of [world_size], on one machine with CUDA and bf16. *)
Definition worker (rank world_size : Z) : Env :=
  {| RANK := rank; LOCAL_RANK := rank; WORLD_SIZE := world_size;
     cuda_is_available := true; is_bf16_supported := true |}.

(** The default arguments with the counts that size a run replaced. *)
Definition small (steps samples epochs : Z) : Args := {|
  batch_size := 4;
  gradient_accumulation_steps := steps;
  max_samples_per_epoch := samples;
  learning_rate := learning_rate default_args;
  dropout := dropout default_args;
  max_gradient_norm := 1%float;
  num_epochs := epochs;
  eval_epochs := 10;
  block_size := 1024;
  embedding_dimensions := 768;
  num_attention_heads := 12;
  num_hidden_layers := 12;
  checkpoint_epochs := 20;
  checkpoint_path := "./out/checkpoint.pt";
  dataset_path := "./dataset";
  num_dataset_processes := 4;
  resume := false;
  device := "cuda";
  seed := None
|}.

Definition start (a : Args) : world := construct a no_files [].

(** A run asked to resume, and a disk that holds one checkpoint at the
    default path. *)
Definition resuming : Args := {|
  batch_size := 4;
  gradient_accumulation_steps := 2;
  max_samples_per_epoch := 16;
  learning_rate := learning_rate default_args;
  dropout := dropout default_args;
  max_gradient_norm := 1%float;
  num_epochs := 1;
  eval_epochs := 10;
  block_size := 1024;
  embedding_dimensions := 768;
  num_attention_heads := 12;
  num_hidden_layers := 12;
  checkpoint_epochs := 20;
  checkpoint_path := "./out/checkpoint.pt";
  dataset_path := "./dataset";
  num_dataset_processes := 4;
  resume := true;
  device := "cuda";
  seed := None
|}.

Definition saved (model_state optimizer_state : Z) : Checkpoint :=
  {| ck_model := model_state; ck_optimizer := optimizer_state;
     ck_model_args := model_args resuming |}.

Definition one_file (c : Checkpoint) : Files :=
  write_file no_files "./out/checkpoint.pt" c.

End Toy.


(** ** Inputs and observations used in the statements *)

(** The default arguments with a learning rate of zero. *)
Definition zero_learning_rate_args : Args := {|
  batch_size := 4;
  gradient_accumulation_steps := 32;
  max_samples_per_epoch := 4096;
  learning_rate := 0%float;
  dropout := dropout default_args;
  max_gradient_norm := 1%float;
  num_epochs := 1000;
  eval_epochs := 10;
  block_size := 1024;
  embedding_dimensions := 768;
  num_attention_heads := 12;
  num_hidden_layers := 12;
  checkpoint_epochs := 20;
  checkpoint_path := "./out/checkpoint.pt";
  dataset_path := "./dataset";
  num_dataset_processes := 4;
  resume := false;
  device := "cuda";
  seed := None
|}.

Section Observations.

Context {T : Torch}.

(** The events of lines 205-209 on a step that closes a window, none on any
    other step. *)
Definition boundary_events (a : Args) (step : Z) : list event :=
  if step mod gradient_accumulation_steps a =? 0
  then [ClipGradNorm (max_gradient_norm a); OptimizerStep; ZeroGrad]
  else [].

Definition is_optimizer_step (e : event) : bool :=
  match e with OptimizerStep => true | _ => false end.

(** How many times [optimizer.step()] was called in a log. *)
Definition optimizer_steps (l : list event) : Z :=
  Z.of_nat (List.length (filter is_optimizer_step l)).

End Observations.

(** ** Outcomes and event classes used in the statements *)

Section Effects.

Context {T : Torch}.

(** The world a statement leaves, whether it returned or raised. *)
Definition final {A : Type} (o : outcome A) : world :=
  match o with
  | Ok _ w => w
  | Raise _ w => w
  end.

(** How many events of a log satisfy a test. *)
Definition count_events (p : event -> bool) (l : list event) : Z :=
  Z.of_nat (List.length (filter p l)).

(** A statement that, from any world and whatever its outcome, appends to
    the log only events of the class [P]. *)
Definition emits_only {A : Type} (P : event -> Prop) (m : M A) : Prop :=
  forall w, exists d, log (final (m w)) = log w ++ d /\ Forall P d.

(** A statement that, whatever its outcome, leaves the observation [f] of the
    world as it was. *)
Definition keeps {A B : Type} (f : world -> B) (m : M A) : Prop :=
  forall w, f (final (m w)) = f w.

(** The part of the world the training of an epoch never touches. *)
Definition outside_training (w : world)
  : Files * Perplexity * bool * bool :=
  (files w, perplexity_metric w, training w, grad_enabled w).

(** A backward pass that ran outside [model.no_sync()]. *)
Definition is_synchronized_backward (e : event) : bool :=
  match e with Backward _ false => true | _ => false end.

Definition is_backward (e : event) : bool :=
  match e with Backward _ _ => true | _ => false end.

(** Lines 205-209: clipping, the optimizer step, the gradient zeroing. *)
Definition is_update_event (e : event) : bool :=
  match e with
  | ClipGradNorm _ | OptimizerStep | ZeroGrad => true
  | _ => false
  end.

(** What the training of an epoch and its report log (lines 184-223). *)
Definition is_training_event (e : event) : bool :=
  match e with
  | Forward _ _ _ | Backward _ _ | ClipGradNorm _ | OptimizerStep | ZeroGrad
  | PrintEpoch _ _ _ => true
  | _ => false
  end.

Definition is_save (e : event) : bool :=
  match e with Save _ => true | _ => false end.

Definition is_metric_compute (e : event) : bool :=
  match e with MetricCompute => true | _ => false end.

Definition is_destroy (e : event) : bool :=
  match e with DestroyProcessGroup => true | _ => false end.

(** The events of one test batch (lines 232-236). *)
Definition eval_batch_events (env : Env) (a : Args) : list event :=
  [Forward (forward_context env a) false false; MetricUpdate].

End Effects.


(** * Properties *)

(** ** Arithmetic and list facts *)

(** Going from step [s - 1] to step [s] adds one to the floor of the quotient
    exactly when [s] is a multiple of the divisor. *)
Lemma div_step (s g : Z) :
  0 < g -> s / g - (s - 1) / g = if s mod g =? 0 then 1 else 0.
Proof.
  intros Hg.
  pose proof (Z.div_mod s g ltac:(lia)) as Hs.
  pose proof (Z.mod_pos_bound s g Hg) as Hb.
  destruct (Z.eqb_spec (s mod g) 0) as [E | E].
  - assert ((s - 1) / g = s / g - 1); [| lia].
    symmetry. apply (Z.div_unique _ _ _ (g - 1)); lia.
  - assert ((s - 1) / g = s / g); [| lia].
    symmetry. apply (Z.div_unique _ _ _ (s mod g - 1)); lia.
Qed.

Lemma range1_cons (n : Z) :
  1 <= n -> exists rest, range1 n = 1 :: rest.
Proof.
  intros Hn. unfold range1.
  destruct (Z.to_nat n) as [| k] eqn:E; [lia |].
  cbn. eexists. reflexivity.
Qed.

(** ** Start-up *)

(** What validation accepts, field by field: the five counts must be at
    least one, and the learning rate must only fail to be below zero. *)
Lemma validate_args_accepts (a : Args) :
  validate_args a = inr tt <->
  1 <= batch_size a /\ 1 <= gradient_accumulation_steps a /\
  PrimFloat.ltb (learning_rate a) 0%float = false /\
  1 <= num_epochs a /\ 1 <= eval_epochs a /\ 1 <= checkpoint_epochs a.
Proof.
  unfold validate_args.
  destruct (Z.ltb_spec (batch_size a) 1);
    [split; [discriminate | lia] |].
  destruct (Z.ltb_spec (gradient_accumulation_steps a) 1);
    [split; [discriminate | lia] |].
  destruct (PrimFloat.ltb (learning_rate a) 0) eqn:Hlr;
    [split; [discriminate | intros (_ & _ & Hf & _); discriminate] |].
  destruct (Z.ltb_spec (num_epochs a) 1);
    [split; [discriminate | lia] |].
  destruct (Z.ltb_spec (eval_epochs a) 1);
    [split; [discriminate | lia] |].
  destruct (Z.ltb_spec (checkpoint_epochs a) 1);
    [split; [discriminate | lia] |].
  split; [intros _; repeat split; assumption | reflexivity].
Qed.

(** Each of the five counts is rejected when it is below one. *)
Lemma validate_args_rejects_counts (a : Args) :
  batch_size a < 1 \/ gradient_accumulation_steps a < 1 \/ num_epochs a < 1 \/
  eval_epochs a < 1 \/ checkpoint_epochs a < 1 ->
  exists msg, validate_args a = inl (ValueError msg).
Proof.
  intros H. unfold validate_args.
  destruct (Z.ltb_spec (batch_size a) 1); [eexists; reflexivity |].
  destruct (Z.ltb_spec (gradient_accumulation_steps a) 1); [eexists; reflexivity |].
  destruct (PrimFloat.ltb (learning_rate a) 0); [eexists; reflexivity |].
  destruct (Z.ltb_spec (num_epochs a) 1); [eexists; reflexivity |].
  destruct (Z.ltb_spec (eval_epochs a) 1); [eexists; reflexivity |].
  destruct (Z.ltb_spec (checkpoint_epochs a) 1); [eexists; reflexivity |].
  lia.
Qed.

(** C8 (the code departs from the claim).  A learning rate of zero passes
    validation, although the message of the check asks for a positive value:
    with every other argument at its default, [validate_args] returns
    normally and the device check passes on a machine with CUDA, while zero
    is not above zero. *)
Theorem zero_learning_rate_passes_validation :
  validate_args zero_learning_rate_args = inr tt /\
  check_device Toy.single zero_learning_rate_args = inr tt /\
  PrimFloat.ltb 0%float (learning_rate zero_learning_rate_args) = false.
Proof. repeat split. Qed.

(** The device string of a distributed worker is never the bare ["cuda"]. *)
Lemma ddp_device_not_cuda (s : string) : String.eqb ("cuda:" ++ s) "cuda" = false.
Proof. reflexivity. Qed.

(** In a distributed run the dtype is [float32], whatever the device
    supports. *)
Lemma ddp_dtype_float32 (env : Env) (a a' : Args) :
  IS_DDP env = true ->
  snd (ddp_setup env a) = inr a' ->
  dtype env a' = float32.
Proof.
  intros Hddp Hs. unfold ddp_setup in Hs. rewrite Hddp in Hs.
  destruct (mod_ _ _) as [e | r]; [discriminate |].
  destruct (floordiv _ _) as [e | q]; [discriminate |].
  simpl in Hs. injection Hs as <-.
  unfold dtype.
  destruct (truthy _); simpl; reflexivity.
Qed.

(** Outside a distributed run, with the device left at ["cuda"], the dtype
    follows the capability of the device. *)
Lemma single_process_dtype (env : Env) (a : Args) :
  device a = "cuda"%string ->
  dtype env a = if is_bf16_supported env then bfloat16 else float32.
Proof. intros E. unfold dtype. rewrite E. reflexivity. Qed.

(** C4 (the code departs from the claim).  Worker 0 of a two-process run on a
    machine whose CUDA device supports bf16: the set-up names the device
    ["cuda:0"], the dtype test compares the device with the bare ["cuda"],
    and the autocast context is built with [float32].  The same machine in a
    single-process run gets [bfloat16]. *)
Theorem ddp_worker_gets_float32_despite_bf16 :
  is_bf16_supported (Toy.worker 0 2) = true /\
  (exists a',
     snd (ddp_setup (Toy.worker 0 2) default_args) = inr a' /\
     device a' = "cuda:0"%string /\
     forward_context (Toy.worker 0 2) a' =
       {| device_type := "cuda:0"; autocast_dtype := float32 |}) /\
  forward_context Toy.single default_args =
    {| device_type := "cuda"; autocast_dtype := bfloat16 |}.
Proof.
  split; [reflexivity |]. split; [| reflexivity].
  eexists. repeat split.
Qed.

(** C5.  In a distributed run with a world size other than zero, the set-up
    completes, the accumulation steps it leaves are the floor of the
    configured steps over the world size, and the divisibility warning is
    among its events exactly when the configured steps are not a multiple of
    the world size. *)
Theorem ddp_setup_floor_divides (env : Env) (a : Args) :
  IS_DDP env = true ->
  WORLD_SIZE env <> 0 ->
  exists a',
    snd (ddp_setup env a) = inr a' /\
    gradient_accumulation_steps a' =
      gradient_accumulation_steps a / WORLD_SIZE env /\
    (In divisibility_warning (fst (ddp_setup env a)) <->
     gradient_accumulation_steps a mod WORLD_SIZE env <> 0).
Proof.
  intros Hddp Hws. unfold ddp_setup. rewrite Hddp.
  unfold mod_, floordiv.
  destruct (Z.eqb_spec (WORLD_SIZE env) 0) as [E | _]; [contradiction |].
  cbn [gradient_accumulation_steps set_device].
  eexists. split; [reflexivity |]. split.
  - destruct (truthy _); reflexivity.
  - destruct (Z.eqb_spec (gradient_accumulation_steps a mod WORLD_SIZE env) 0)
      as [E | E]; cbn [negb fst].
    + rewrite E. split; [| intros C; contradiction].
      intros [C | [C | []]]; discriminate.
    + split; [intros _; exact E |].
      intros _. apply in_or_app. right. left. reflexivity.
Qed.

(** Ten configured steps over four workers: two steps each, with the
    warning. *)
Lemma ddp_setup_floor_divides_10_4 :
  IS_DDP (Toy.worker 1 4) = true /\
  WORLD_SIZE (Toy.worker 1 4) <> 0 /\
  exists a',
    snd (ddp_setup (Toy.worker 1 4) (Toy.small 10 64 1)) = inr a' /\
    gradient_accumulation_steps a' = 10 / 4 /\
    (In divisibility_warning (fst (ddp_setup (Toy.worker 1 4) (Toy.small 10 64 1))) <->
     10 mod 4 <> 0).
Proof.
  split; [reflexivity |]. split; [discriminate |].
  apply (ddp_setup_floor_divides (Toy.worker 1 4) (Toy.small 10 64 1));
    [reflexivity | discriminate].
Defined.

(** The two configurations the specification lists: 32 steps over 4 workers
    leave 8 without a warning; 10 over 4 leave 2 with it. *)
Example ddp_setup_32_4 :
  ddp_setup (Toy.worker 0 4) default_args =
  ([InitProcessGroup "nccl" 4; SetDevice "cuda:0"],
   inr (set_gradient_accumulation_steps (set_device default_args "cuda:0") 8)).
Proof. reflexivity. Qed.

Example ddp_setup_10_4 :
  ddp_setup (Toy.worker 0 4) (Toy.small 10 64 1) =
  ([InitProcessGroup "nccl" 4; SetDevice "cuda:0"; divisibility_warning],
   inr (set_gradient_accumulation_steps (set_device (Toy.small 10 64 1) "cuda:0") 2)).
Proof. reflexivity. Qed.

(** ** The training loop *)

Section TrainingLoop.

Context {T : Torch}.
Variables (env : Env) (a : Args).

(** What line 197 does: in a distributed run, the backward pass runs outside
    [no_sync] on the step whose index equals the accumulation steps, and on
    no other step. *)
Lemma no_sync_false_iff (step : Z) :
  IS_DDP env = true ->
  (no_sync env a step = false <-> step = gradient_accumulation_steps a).
Proof.
  intros Hddp. unfold no_sync. rewrite Hddp. cbn.
  destruct (Z.eqb_spec step (gradient_accumulation_steps a)); cbn; split;
    congruence.
Qed.

(** One pass through the body of the inner loop, when the accumulation steps
    are not zero: it returns, and this is what it leaves. *)
Lemma train_batch_runs (step : Z) (xy : Input * Target) (t : Totals) (w : world) :
  gradient_accumulation_steps a <> 0 ->
  let ctx := forward_context env a in
  let loss :=
    tensor_div
      (snd (model_call (model w) (training w) (grad_enabled w) ctx (fst xy) (snd xy)))
      (gradient_accumulation_steps a) in
  exists t' w',
    train_batch env a step xy t w = Ok t' w' /\
    log w' = log w ++ Forward ctx (training w) (grad_enabled w)
                   :: Backward loss (no_sync env a step)
                   :: boundary_events a step /\
    total_cross_entropy t' = PrimFloat.add (total_cross_entropy t) (item loss) /\
    total_batches t' = total_batches t + 1 /\
    total_steps t' =
      total_steps t + (if step mod gradient_accumulation_steps a =? 0 then 1 else 0) /\
    (step mod gradient_accumulation_steps a <> 0 ->
     optimizer w' = optimizer w /\ total_gradient_norm t' = total_gradient_norm t) /\
    (step mod gradient_accumulation_steps a = 0 ->
     total_gradient_norm t' =
       PrimFloat.add (total_gradient_norm t)
         (item (snd (clip_grad_norm_
                       (backward (model w) loss (negb (no_sync env a step)))
                       (max_gradient_norm a))))) /\
    training w' = training w /\ grad_enabled w' = grad_enabled w.
Proof.
  intros Hgas ctx loss.
  unfold train_batch, bind, forward_train, loss_backward, lift, mod_, update.
  destruct (Z.eqb_spec (gradient_accumulation_steps a) 0) as [E | _]; [contradiction |].
  unfold boundary_events.
  cbn [model training grad_enabled emit with_model snd log].
  fold ctx. fold loss.
  destruct (Z.eqb_spec (step mod gradient_accumulation_steps a) 0) as [E | E].
  - unfold clip_gradients, step_optimizer, zero_gradients, update, ret.
    cbn [model training grad_enabled emit with_model snd log optimizer].
    destruct (clip_grad_norm_ _ _) as [m norm].
    cbn [model training grad_enabled emit with_model snd log optimizer].
    destruct (optimizer_step _ _) as [o m'].
    do 2 eexists. split; [reflexivity |].
    cbn. repeat rewrite <- app_assoc. cbn.
    repeat split; try reflexivity; contradiction.
  - unfold ret. do 2 eexists. split; [reflexivity |].
    cbn. repeat rewrite <- app_assoc. cbn.
    repeat split; try reflexivity; lia.
Qed.

Lemma optimizer_steps_app (l l' : list event) :
  optimizer_steps (l ++ l') = optimizer_steps l + optimizer_steps l'.
Proof.
  unfold optimizer_steps. rewrite filter_app, List.length_app. lia.
Qed.

Lemma optimizer_steps_batch (ctx : Autocast) (tr g ns : bool) (loss : Tensor) (step : Z) :
  optimizer_steps (Forward ctx tr g :: Backward loss ns :: boundary_events a step) =
  if step mod gradient_accumulation_steps a =? 0 then 1 else 0.
Proof.
  unfold boundary_events.
  destruct (step mod gradient_accumulation_steps a =? 0); reflexivity.
Qed.

(** The loop from any step on, with positive accumulation steps: it returns,
    and the steps it takes are the multiples of the accumulation steps among
    the indices it runs through. *)
Lemma train_batches_runs (bs : list (Input * Target)) :
  0 < gradient_accumulation_steps a ->
  forall (step : Z) (t : Totals) (w : world),
  let boundaries :=
    (step + Z.of_nat (List.length bs) - 1) / gradient_accumulation_steps a -
    (step - 1) / gradient_accumulation_steps a in
  exists t' w',
    train_batches env a step bs t w = Ok t' w' /\
    total_batches t' = total_batches t + Z.of_nat (List.length bs) /\
    total_steps t' = total_steps t + boundaries /\
    optimizer_steps (log w') = optimizer_steps (log w) + boundaries /\
    training w' = training w /\ grad_enabled w' = grad_enabled w.
Proof.
  intros Hgas. induction bs as [| xy rest IH]; intros step t w.
  - cbn [train_batches List.length Z.of_nat]. exists t, w.
    replace (step + 0 - 1) with (step - 1) by lia.
    rewrite Z.sub_diag, !Z.add_0_r. repeat split.
  - cbn [train_batches]. unfold bind.
    destruct (train_batch_runs step xy t w ltac:(lia))
      as (t1 & w1 & Hrun & Hlog & _ & Hb & Hs & _ & _ & Htr & Hg).
    rewrite Hrun.
    destruct (IH (step + 1) t1 w1) as (t2 & w2 & Hrun2 & Hb2 & Hs2 & Ho2 & Htr2 & Hg2).
    exists t2, w2. split; [exact Hrun2 |].
    pose proof (div_step step _ Hgas) as Hd.
    rewrite Hlog, optimizer_steps_app, optimizer_steps_batch in Ho2.
    cbn [List.length]. rewrite Nat2Z.inj_succ.
    replace (step + 1 + Z.of_nat (List.length rest) - 1)
      with (step + Z.succ (Z.of_nat (List.length rest)) - 1) in * by lia.
    replace (step + 1 - 1) with step in * by lia.
    repeat split; try congruence; lia.
Qed.

(** The loop while it stays inside the first window: no optimizer step. *)
Lemma train_batches_inside_window (bs : list (Input * Target)) :
  forall (step : Z) (t : Totals) (w : world),
  0 < step ->
  step + Z.of_nat (List.length bs) <= gradient_accumulation_steps a ->
  exists t' w',
    train_batches env a step bs t w = Ok t' w' /\
    total_batches t' = total_batches t + Z.of_nat (List.length bs) /\
    total_steps t' = total_steps t /\
    total_gradient_norm t' = total_gradient_norm t /\
    optimizer w' = optimizer w /\
    optimizer_steps (log w') = optimizer_steps (log w).
Proof.
  induction bs as [| xy rest IH]; intros step t w Hstep Hlen.
  - exists t, w. cbn. repeat split. lia.
  - cbn [train_batches]. unfold bind.
    cbn [List.length] in Hlen. rewrite Nat2Z.inj_succ in Hlen.
    assert (Hmod : step mod gradient_accumulation_steps a <> 0)
      by (rewrite Z.mod_small; lia).
    destruct (train_batch_runs step xy t w ltac:(lia))
      as (t1 & w1 & Hrun & Hlog & _ & Hb & Hs & Hin & _).
    destruct (Hin Hmod) as [Ho Hn].
    rewrite Hrun.
    destruct (IH (step + 1) t1 w1 ltac:(lia) ltac:(lia))
      as (t2 & w2 & Hrun2 & Hb2 & Hs2 & Hn2 & Ho2 & Hc2).
    exists t2, w2. split; [exact Hrun2 |].
    rewrite Hlog, optimizer_steps_app, optimizer_steps_batch in Hc2.
    destruct (Z.eqb_spec (step mod gradient_accumulation_steps a) 0) as [E | _];
      [contradiction |].
    cbn [List.length]. rewrite Nat2Z.inj_succ.
    repeat split; try congruence; lia.
Qed.

(** With accumulation steps of zero, an epoch that has a batch stops on the
    modulo of line 204, after the forward and the backward pass of the first
    batch. *)
Lemma zero_steps_first_batch_raises (epoch : Z) (w : world)
    (xy : Input * Target) (rest : list (Input * Target)) :
  gradient_accumulation_steps a = 0 ->
  train_loader a epoch = xy :: rest ->
  exists w',
    train_epoch env a epoch w = Raise ZeroDivisionError w' /\
    log w' =
      log w ++
      [Forward (forward_context env a) (training w) (grad_enabled w);
       Backward
         (tensor_div
            (snd (model_call (model w) (training w) (grad_enabled w)
                    (forward_context env a) (fst xy) (snd xy))) 0)
         (no_sync env a 1)].
Proof.
  intros Ha Hl.
  unfold train_epoch, bind. rewrite Hl.
  cbn [train_batches].
  unfold bind, train_batch, bind, forward_train, loss_backward, update, lift, mod_.
  rewrite Ha. cbn.
  eexists. split; [reflexivity |]. cbn.
  rewrite <- app_assoc. reflexivity.
Qed.

(** C3.  When the accumulation steps are not zero, the body of the loop
    returns for every batch; the tensor handed to the backward pass is the
    loss of the forward pass divided by the accumulation steps, the backward
    pass comes right after the forward pass, and the value added to the
    running loss total is the item of that same divided tensor. *)
Theorem loss_scaled_before_backward
    (step : Z) (x : Input) (y : Target) (t : Totals) (w : world) :
  gradient_accumulation_steps a <> 0 ->
  let ctx := forward_context env a in
  let loss := snd (model_call (model w) (training w) (grad_enabled w) ctx x y) in
  let scaled := tensor_div loss (gradient_accumulation_steps a) in
  exists t' w',
    train_batch env a step (x, y) t w = Ok t' w' /\
    (exists later,
       log w' = log w ++ Forward ctx (training w) (grad_enabled w)
                      :: Backward scaled (no_sync env a step) :: later) /\
    total_cross_entropy t' = PrimFloat.add (total_cross_entropy t) (item scaled).
Proof.
  intros Hgas ctx loss scaled.
  destruct (train_batch_runs step (x, y) t w Hgas)
    as (t' & w' & Hrun & Hlog & Hce & _).
  exists t', w'. split; [exact Hrun |]. split; [| exact Hce].
  eexists. exact Hlog.
Qed.

(** The model and the optimizer one pass through the body of the loop
    leaves, when the accumulation steps are not zero: off a boundary the
    model after the backward pass and the optimizer untouched; on a boundary
    the optimizer after its step on the clipped model, and that model with
    its gradients zeroed. *)
Lemma train_batch_state (step : Z) (xy : Input * Target) (t : Totals) (w : world) :
  gradient_accumulation_steps a <> 0 ->
  let ctx := forward_context env a in
  let loss :=
    tensor_div
      (snd (model_call (model w) (training w) (grad_enabled w) ctx (fst xy) (snd xy)))
      (gradient_accumulation_steps a) in
  let after_backward := backward (model w) loss (negb (no_sync env a step)) in
  let clipped := clip_grad_norm_ after_backward (max_gradient_norm a) in
  let stepped := optimizer_step (optimizer w) (fst clipped) in
  exists t' w',
    train_batch env a step xy t w = Ok t' w' /\
    (step mod gradient_accumulation_steps a <> 0 ->
     model w' = after_backward /\ optimizer w' = optimizer w) /\
    (step mod gradient_accumulation_steps a = 0 ->
     optimizer w' = fst stepped /\
     model w' = zero_grad (fst stepped) (snd stepped) /\
     total_gradient_norm t' =
       PrimFloat.add (total_gradient_norm t) (item (snd clipped))).
Proof.
  intros Hgas ctx loss after_backward clipped stepped.
  unfold train_batch, bind, forward_train, loss_backward, lift, mod_, update.
  destruct (Z.eqb_spec (gradient_accumulation_steps a) 0) as [E | _]; [contradiction |].
  cbn [model training grad_enabled emit with_model snd log optimizer].
  fold ctx. fold loss. fold after_backward.
  destruct (Z.eqb_spec (step mod gradient_accumulation_steps a) 0) as [E | E].
  - unfold clip_gradients, step_optimizer, zero_gradients, update, ret.
    cbn [model training grad_enabled emit with_model snd log optimizer].
    fold clipped. subst stepped.
    destruct clipped as [m norm].
    cbn [model training grad_enabled emit with_model with_optimizer fst snd log
         optimizer].
    destruct (optimizer_step (optimizer w) m) as [o m'].
    do 2 eexists. split; [reflexivity |].
    split; [intros C; contradiction |].
    intros _. cbn. repeat split.
  - unfold ret. do 2 eexists. split; [reflexivity |].
    split; [intros _; cbn; split; reflexivity | intros C; contradiction].
Qed.

(** C2.  With positive accumulation steps [gas]:
    - the body of the loop, at any step, returns.  When the step is a
      multiple of [gas] it clips, steps the optimizer and zeroes the
      gradients, in this order and after the backward pass: the optimizer it
      leaves is the result of the optimizer step on the clipped model, the
      model is the stepped model with its gradients zeroed, the step count
      grows by one, and what is added to the gradient-norm total is the item
      of the norm that this clipping returned.  When the step is not a
      multiple of [gas] it does none of the three: the optimizer is
      untouched, the model is the one the backward pass left, and the step
      count and the gradient-norm total stay as they were;
    - the loop over any list of [n] batches, started at step 1, returns with
      a batch count of [n], a step count of [n // gas] and [n // gas] more
      optimizer steps in the log;
    - when the epoch has at least [gas] batches, the epoch returns and the
      gradient norm it prints is the gradient-norm total divided by
      [n // gas], the loss it prints the loss total divided by [n]. *)
Theorem optimizer_steps_per_epoch (epoch : Z) (w : world) :
  0 < gradient_accumulation_steps a ->
  let gas := gradient_accumulation_steps a in
  (forall step xy t w0,
     let ctx := forward_context env a in
     let loss :=
       tensor_div
         (snd (model_call (model w0) (training w0) (grad_enabled w0) ctx
                 (fst xy) (snd xy))) gas in
     let after_backward := backward (model w0) loss (negb (no_sync env a step)) in
     let clipped := clip_grad_norm_ after_backward (max_gradient_norm a) in
     let stepped := optimizer_step (optimizer w0) (fst clipped) in
     exists t' w0',
       train_batch env a step xy t w0 = Ok t' w0' /\
       log w0' =
         log w0 ++
         Forward ctx (training w0) (grad_enabled w0)
         :: Backward loss (no_sync env a step)
         :: (if step mod gas =? 0
             then [ClipGradNorm (max_gradient_norm a); OptimizerStep; ZeroGrad]
             else []) /\
       total_batches t' = total_batches t + 1 /\
       total_steps t' = total_steps t + (if step mod gas =? 0 then 1 else 0) /\
       (step mod gas <> 0 ->
        optimizer w0' = optimizer w0 /\
        model w0' = after_backward /\
        total_gradient_norm t' = total_gradient_norm t) /\
       (step mod gas = 0 ->
        optimizer w0' = fst stepped /\
        model w0' = zero_grad (fst stepped) (snd stepped) /\
        total_gradient_norm t' =
          PrimFloat.add (total_gradient_norm t) (item (snd clipped)))) /\
  (forall bs w0, exists t w0',
     train_batches env a 1 bs totals0 w0 = Ok t w0' /\
     total_batches t = Z.of_nat (List.length bs) /\
     total_steps t = Z.of_nat (List.length bs) / gas /\
     optimizer_steps (log w0') =
       optimizer_steps (log w0) + Z.of_nat (List.length bs) / gas) /\
  (let n := Z.of_nat (List.length (train_loader a epoch)) in
   gas <= n ->
   exists t w',
     train_batches env a 1 (train_loader a epoch) totals0 w = Ok t w' /\
     train_epoch env a epoch w =
       Ok tt (emit w' (PrintEpoch epoch
                         (PrimFloat.div (total_cross_entropy t) (float_of_int n))
                         (PrimFloat.div (total_gradient_norm t)
                                        (float_of_int (n / gas)))))).
Proof.
  intros Hgas gas.
  assert (Hloop : forall bs w0, exists t w0',
     train_batches env a 1 bs totals0 w0 = Ok t w0' /\
     total_batches t = Z.of_nat (List.length bs) /\
     total_steps t = Z.of_nat (List.length bs) / gas /\
     optimizer_steps (log w0') =
       optimizer_steps (log w0) + Z.of_nat (List.length bs) / gas).
  { intros bs w0.
    destruct (train_batches_runs bs Hgas 1 totals0 w0)
      as (t & w0' & Hrun & Hb & Hs & Ho & _).
    fold gas in Hs, Ho.
    replace (1 + Z.of_nat (List.length bs) - 1)
      with (Z.of_nat (List.length bs)) in * by lia.
    replace ((1 - 1) / gas) with 0 in * by reflexivity.
    rewrite Z.sub_0_r in Hs, Ho. cbn in Hb, Hs.
    exists t, w0'. repeat split; assumption. }
  split; [| split; [exact Hloop |]].
  - intros step xy t w0 ctx loss after_backward clipped stepped.
    destruct (train_batch_runs step xy t w0 ltac:(lia))
      as (t' & w0' & Hrun & Hlog & _ & Hb & Hs & Hin & _).
    destruct (train_batch_state step xy t w0 ltac:(lia))
      as (t2 & w2 & Hrun2 & Hoff & Hon).
    rewrite Hrun in Hrun2. injection Hrun2 as <- <-.
    exists t', w0'. split; [exact Hrun |].
    split; [exact Hlog |]. split; [exact Hb |]. split; [exact Hs |]. split.
    + intros E. destruct (Hoff E) as [Hm Ho]. destruct (Hin E) as [_ Hn].
      repeat split; assumption.
    + exact Hon.
  - intros n Hn.
    destruct (Hloop (train_loader a epoch) w) as (t & w' & Hrun & Hb & Hs & _).
    fold n in Hb, Hs.
    exists t, w'. split; [exact Hrun |].
    unfold train_epoch, bind. rewrite Hrun.
    unfold report, bind, lift, truediv. rewrite Hb, Hs.
    assert (1 <= n / gas) by (apply Z.div_le_lower_bound; lia).
    destruct (Z.eqb_spec n 0) as [E | _]; [lia |].
    destruct (Z.eqb_spec (n / gas) 0) as [E | _]; [lia |].
    reflexivity.
Qed.

(** C10.  An epoch with fewer batches than the accumulation steps: the loop
    returns with a step count of zero, the optimizer and the number of
    optimizer steps in the log as before, and the epoch ends in a
    [ZeroDivisionError], the gradient-norm total being divided by the zero
    step count (the loss total by the batch count first, which succeeds when
    there is a batch).  An epoch with no batch, whatever the accumulation
    steps, ends in a [ZeroDivisionError] on the division of the loss total by
    the zero batch count, with nothing done. *)
Theorem short_epoch_report_raises (epoch : Z) (w : world) :
  let n := Z.of_nat (List.length (train_loader a epoch)) in
  (n < gradient_accumulation_steps a ->
   exists t w',
     train_batches env a 1 (train_loader a epoch) totals0 w = Ok t w' /\
     total_batches t = n /\
     total_steps t = 0 /\
     optimizer w' = optimizer w /\
     optimizer_steps (log w') = optimizer_steps (log w) /\
     (n <> 0 -> exists average,
        truediv (total_cross_entropy t) (total_batches t) = inr average) /\
     truediv (total_gradient_norm t) (total_steps t) = inl ZeroDivisionError /\
     train_epoch env a epoch w = Raise ZeroDivisionError w') /\
  (n = 0 ->
   truediv (total_cross_entropy totals0) (total_batches totals0) =
     inl ZeroDivisionError /\
   train_epoch env a epoch w = Raise ZeroDivisionError w).
Proof.
  intros n. split.
  - intros Hn.
    destruct (train_batches_inside_window (train_loader a epoch) 1 totals0 w
                ltac:(lia) ltac:(fold n; lia))
      as (t & w' & Hrun & Hb & Hs & _ & Ho & Hc).
    fold n in Hb. cbn in Hb, Hs.
    exists t, w'. split; [exact Hrun |].
    split; [exact Hb |]. split; [exact Hs |]. split; [exact Ho |].
    split; [exact Hc |]. split; [| split].
    + intros E. unfold truediv. rewrite Hb.
      destruct (Z.eqb_spec n 0); [contradiction | eexists; reflexivity].
    + rewrite Hs. reflexivity.
    + unfold train_epoch, bind. rewrite Hrun.
      unfold report, bind, lift, truediv. rewrite Hb, Hs.
      destruct (n =? 0); reflexivity.
  - intros E. split; [reflexivity |].
    assert (Hl : train_loader a epoch = []).
    { destruct (train_loader a epoch); [reflexivity | discriminate E]. }
    unfold train_epoch, bind. rewrite Hl. reflexivity.
Qed.

(** ** Evaluation *)

(** The test loop returns; it leaves the model, the optimizer, both mode
    flags and the files alone, feeds every batch to the metric, and logs
    nothing but forward passes with the autograd switch off and metric
    updates. *)
Lemma eval_batches_runs (bs : list (Input * Target)) :
  forall w : world,
  let ctx := forward_context env a in
  exists w',
    eval_batches env a bs w = Ok tt w' /\
    model w' = model w /\ optimizer w' = optimizer w /\
    training w' = training w /\ grad_enabled w' = grad_enabled w /\
    files w' = files w /\
    perplexity_metric w' =
      fold_left
        (fun p xy =>
           metric_update p
             (model_call_no_target (model w) (training w) false ctx (fst xy))
             (snd xy))
        bs (perplexity_metric w) /\
    exists d,
      log w' = log w ++ d /\
      Forall (fun e => e = Forward ctx (training w) false \/ e = MetricUpdate) d.
Proof.
  induction bs as [| xy rest IH]; intros w ctx.
  - exists w. cbn. repeat split. exists []. rewrite app_nil_r. split; constructor.
  - cbn [eval_batches]. unfold bind, eval_batch.
    cbn [model training grad_enabled with_grad_enabled emit with_metric
         perplexity_metric].
    match goal with |- context [eval_batches env a rest ?w1] =>
      destruct (IH w1) as (w' & Hrun & Hm & Ho & Ht & Hg & Hf & Hp & d & Hl & Hd)
    end.
    cbn in Hm, Ho, Ht, Hg, Hf, Hp, Hl, Hd.
    exists w'. split; [exact Hrun |].
    repeat split; try assumption.
    exists (Forward ctx (training w) false :: MetricUpdate :: d). split.
    + rewrite Hl, <- !app_assoc. reflexivity.
    + constructor; [left; reflexivity |].
      constructor; [right; reflexivity | exact Hd].
Qed.

(** C6.  The evaluation pass returns; the optimizer is the one it started
    with, and so are the model and the autograd switch; the model is in
    training mode afterwards; the metric is the reset of what the test
    batches accumulated; and everything the pass logs is a forward pass in
    evaluation mode with the autograd switch off, a metric update, the metric
    computation, the perplexity line or the metric reset: no backward pass,
    no clipping, no optimizer step, no gradient zeroing, no file written. *)
Theorem evaluate_leaves_training_state (epoch : Z) (w : world) :
  let ctx := forward_context env a in
  exists w',
    evaluate env a epoch w = Ok tt w' /\
    optimizer w' = optimizer w /\
    model w' = model w /\
    files w' = files w /\
    training w' = true /\
    grad_enabled w' = grad_enabled w /\
    perplexity_metric w' =
      metric_reset
        (fold_left
           (fun p xy =>
              metric_update p
                (model_call_no_target (model w) false false ctx (fst xy))
                (snd xy))
           (test_loader a epoch) (perplexity_metric w)) /\
    exists d,
      log w' = log w ++ d /\
      Forall (fun e =>
                e = Forward ctx false false \/ e = MetricUpdate \/
                e = MetricCompute \/ (exists p, e = PrintPerplexity p) \/
                e = MetricReset) d.
Proof.
  intros ctx. unfold evaluate, bind, update.
  destruct (eval_batches_runs (test_loader a epoch) (with_training w false))
    as (w1 & Hrun & Hm & Ho & Ht & Hg & Hf & Hp & d & Hl & Hd).
  rewrite Hrun. cbn in Hm, Ho, Ht, Hg, Hf, Hp, Hl, Hd.
  eexists. split; [reflexivity |]. cbn.
  repeat split; try assumption.
  - rewrite Hp. reflexivity.
  - exists (d ++ [MetricCompute;
                  PrintPerplexity (item (metric_compute (perplexity_metric w1)));
                  MetricReset]).
    split.
    + rewrite Hl, <- !app_assoc. reflexivity.
    + apply Forall_app. split.
      * eapply Forall_impl; [| exact Hd]. intros e [E | E]; auto.
      * constructor; [auto |]. constructor; [eauto 6 |].
        constructor; [auto 6 | constructor].
Qed.

(** ** Resuming *)

(** What [main] itself does on resumption: it lets the exceptions of the
    library calls escape and applies the two states in order.  With
    [--resume]:
    - if no file exists at the checkpoint path, the load raises
      [FileNotFoundError] with nothing changed, and the run ends with that
      error after its two opening lines, before any training;
    - if the file exists and its model state does not fit the live model,
      the load raises a [RuntimeError] with nothing changed;
    - if both states fit, the load returns, the model is the live model with
      the checkpoint's model state loaded, the optimizer is the live
      optimizer with the checkpoint's optimizer state loaded, and the only
      line logged is the one that reports the resumption. *)
Theorem resume_applies_checkpoint_or_fails (w : world) :
  resume a = true ->
  (files w (checkpoint_path a) = None ->
   resume_checkpoint a w = Raise FileNotFoundError w /\
   exists w',
     run env a w = Raise FileNotFoundError w' /\
     log w' =
       log w ++
       [Print "Compiling model";
        Print "Model has {model.num_trainable_params:,} trainable parameters"]) /\
  (forall checkpoint,
     files w (checkpoint_path a) = Some checkpoint ->
     model_load_state_dict (model w) (ck_model checkpoint) = None ->
     exists msg, resume_checkpoint a w = Raise (RuntimeError msg) w) /\
  (forall checkpoint m o,
     files w (checkpoint_path a) = Some checkpoint ->
     model_load_state_dict (model w) (ck_model checkpoint) = Some m ->
     optimizer_load_state_dict (optimizer w) (ck_optimizer checkpoint) = Some o ->
     exists w',
       resume_checkpoint a w = Ok tt w' /\
       model w' = m /\ optimizer w' = o /\
       log w' = log w ++ [Print "Previous checkpoint resumed successfully"]).
Proof.
  intros Hres. unfold resume_checkpoint, when. rewrite Hres.
  unfold bind, torch_load, load_model, load_optimizer.
  split; [| split].
  - intros Hnone. rewrite Hnone. split; [reflexivity |].
    unfold run, bind, say, update, resume_checkpoint, when. rewrite Hres.
    unfold bind, torch_load. cbn. rewrite Hnone.
    eexists. split; [reflexivity |]. cbn.
    rewrite <- app_assoc. reflexivity.
  - intros ck Hf Hm. rewrite Hf, Hm. eexists. reflexivity.
  - intros ck m o Hf Hm Ho. rewrite Hf, Hm. cbn. rewrite Ho.
    eexists. split; [reflexivity |]. cbn. repeat split.
Qed.

End TrainingLoop.

(** ** Distributed runs *)

Section Distributed.

Context {T : Torch}.

(** C1 (the code departs from the claim).  Worker 0 of two, configured with
    four accumulation steps, is left with two.  At step 2 the backward pass
    runs outside [no_sync]; at step 4, which closes the second window (4 % 2
    is 0), it runs inside [no_sync], and the clipping, the optimizer step and
    the gradient zeroing follow all the same. *)
Theorem second_boundary_backward_under_no_sync
    (xy : Input * Target) (t : Totals) (w : world) :
  let env := Toy.worker 0 2 in
  exists a' t' w' loss,
    snd (ddp_setup env (Toy.small 4 32 1)) = inr a' /\
    gradient_accumulation_steps a' = 2 /\
    mod_ 4 (gradient_accumulation_steps a') = inr 0 /\
    no_sync env a' 2 = false /\
    no_sync env a' 4 = true /\
    train_batch env a' 4 xy t w = Ok t' w' /\
    log w' = log w ++ [Forward (forward_context env a') (training w) (grad_enabled w);
                       Backward loss true;
                       ClipGradNorm (max_gradient_norm a');
                       OptimizerStep; ZeroGrad].
Proof.
  intros env.
  destruct (train_batch_runs env
              (set_gradient_accumulation_steps
                 (set_device (Toy.small 4 32 1) "cuda:0") 2) 4 xy t w
              ltac:(discriminate))
    as (t' & w' & Hrun & Hlog & _).
  eexists. exists t', w'. eexists.
  split; [reflexivity |]. split; [reflexivity |]. split; [reflexivity |].
  split; [reflexivity |]. split; [reflexivity |].
  split; [exact Hrun | exact Hlog].
Qed.

(** C9.  In a distributed run whose arguments pass validation and whose
    world size exceeds the configured accumulation steps, the set-up
    completes and leaves accumulation steps of zero, which validation would
    no longer accept; every epoch that has a batch then ends in a
    [ZeroDivisionError] with only the forward and the backward pass (inside
    [no_sync]) of its first batch in the log; and [main] itself, when the
    device check passes, no resumption is asked for and the first epoch has
    a batch, ends in a [ZeroDivisionError]. *)
Theorem world_size_above_steps_divides_by_zero (env : Env) (args : Args) :
  IS_DDP env = true ->
  validate_args args = inr tt ->
  gradient_accumulation_steps args < WORLD_SIZE env ->
  exists a',
    snd (ddp_setup env args) = inr a' /\
    gradient_accumulation_steps a' = 0 /\
    validate_args a' <> inr tt /\
    (forall epoch w xy rest,
       train_loader a' epoch = xy :: rest ->
       exists w',
         train_epoch env a' epoch w = Raise ZeroDivisionError w' /\
         log w' =
           log w ++
           [Forward (forward_context env a') (training w) (grad_enabled w);
            Backward
              (tensor_div
                 (snd (model_call (model w) (training w) (grad_enabled w)
                         (forward_context env a') (fst xy) (snd xy))) 0)
              true]) /\
    (forall fs,
       check_device env args = inr tt ->
       resume args = false ->
       train_loader a' 1 <> [] ->
       exists trace, main env args fs = Crashed ZeroDivisionError trace).
Proof.
  intros Hddp Hval Hlt.
  pose proof Hval as Hpos. apply validate_args_accepts in Hpos.
  destruct Hpos as (Hbs & Hgas & Hlr & Hne & Hee & Hce).
  assert (Hws : (WORLD_SIZE env =? 0) = false) by (apply Z.eqb_neq; lia).
  assert (Hq : gradient_accumulation_steps args / WORLD_SIZE env = 0)
    by (apply Z.div_small; lia).
  unfold ddp_setup at 1. rewrite Hddp. unfold mod_, floordiv.
  cbn [gradient_accumulation_steps set_device]. rewrite Hws, Hq.
  match goal with |- exists a', snd (_, inr ?x) = _ /\ _ => set (a1 := x) end.
  assert (Ha1 : gradient_accumulation_steps a1 = 0)
    by (subst a1; destruct (truthy _); reflexivity).
  assert (Hres1 : resume a1 = resume args)
    by (subst a1; destruct (truthy _); reflexivity).
  assert (Hne1 : num_epochs a1 = num_epochs args)
    by (subst a1; destruct (truthy _); reflexivity).
  assert (Hns : no_sync env a1 1 = true)
    by (unfold no_sync; rewrite Hddp, Ha1; reflexivity).
  exists a1. split; [reflexivity |]. split; [exact Ha1 |]. split.
  { intros C. apply validate_args_accepts in C. lia. }
  split.
  { intros epoch w xy rest Hl.
    destruct (zero_steps_first_batch_raises env a1 epoch w xy rest Ha1 Hl)
      as (w' & Hrun & Hlog).
    rewrite Hns in Hlog. exists w'. split; assumption. }
  intros fs Hdev Hres Hbatches.
  unfold main. rewrite Hval, Hdev.
  unfold ddp_setup. rewrite Hddp. unfold mod_, floordiv.
  cbn [gradient_accumulation_steps set_device]. rewrite Hws, Hq.
  fold a1.
  destruct (train_loader a1 1) as [| xy rest] eqn:Hl; [contradiction |].
  destruct (range1_cons (num_epochs a1) ltac:(lia)) as (l & Hr).
  unfold run, bind, say, update, resume_checkpoint, when, ret.
  rewrite Hres1, Hres, Hddp, Hr. cbn [epochs]. unfold epoch_body, bind.
  cbv beta iota.
  match goal with |- context [train_epoch env a1 1 ?w0] =>
    destruct (zero_steps_first_batch_raises env a1 1 w0 xy rest Ha1 Hl)
      as (w' & Hrun & _)
  end.
  rewrite Hrun. eexists. reflexivity.
Qed.

End Distributed.

(** ** Worked runs on the small instance *)

Section Worked.

#[local] Existing Instance Toy.torch.

(** Two accumulation steps and an epoch of four batches.  The body of the
    loop at step 2, from the freshly built objects: the optimizer has taken
    its first step, the pending gradient has gone into the weights and been
    zeroed, and the clipped norm of [1.0] is the gradient-norm total.  The
    epoch returns, and its report divides the gradient-norm total by two and
    the loss total by four. *)
Lemma optimizer_steps_per_epoch_two_of_four :
  0 < gradient_accumulation_steps (Toy.small 2 16 1) /\
  (exists t' w',
     train_batch (T := Toy.torch) Toy.single (Toy.small 2 16 1) 2 (1, 1) totals0
       (Toy.start (Toy.small 2 16 1)) = Ok t' w' /\
     optimizer w' = 1 /\ model w' = (1, 0) /\
     total_steps t' = 1 /\ total_gradient_norm t' = 1%float) /\
  exists t w',
    train_batches Toy.single (Toy.small 2 16 1) 1
      (train_loader (Toy.small 2 16 1) 1) totals0 (Toy.start (Toy.small 2 16 1)) =
      Ok t w' /\
    train_epoch Toy.single (Toy.small 2 16 1) 1 (Toy.start (Toy.small 2 16 1)) =
      Ok tt (emit w' (PrintEpoch 1
                        (PrimFloat.div (total_cross_entropy t) 4%float)
                        (PrimFloat.div (total_gradient_norm t) 2%float))).
Proof.
  split; [reflexivity |].
  destruct (optimizer_steps_per_epoch (T := Toy.torch) Toy.single (Toy.small 2 16 1) 1
              (Toy.start (Toy.small 2 16 1)) eq_refl) as (Hbatch & _ & Hepoch).
  split.
  - destruct (Hbatch 2 (1, 1) totals0 (Toy.start (Toy.small 2 16 1)))
      as (t' & w' & Hrun & _ & _ & Hs & _ & Hon).
    destruct (Hon eq_refl) as (Ho & Hm & Hn).
    exists t', w'. split; [exact Hrun |].
    split; [exact Ho |]. split; [exact Hm |]. split; [exact Hs | exact Hn].
  - apply Hepoch. vm_compute. discriminate.
Defined.

(** The first batch of that epoch: the loss of [1.0] reaches the backward
    pass and the running total as [0.5]. *)
Lemma loss_scaled_before_backward_half :
  gradient_accumulation_steps (Toy.small 2 16 1) <> 0 /\
  exists t' w',
    train_batch (T := Toy.torch) Toy.single (Toy.small 2 16 1) 1 (1, 1) totals0
      (Toy.start (Toy.small 2 16 1)) = Ok t' w' /\
    (exists later,
       log w' =
         Forward {| device_type := "cuda"; autocast_dtype := bfloat16 |} true true
         :: Backward 0.5%float false :: later) /\
    total_cross_entropy t' = 0.5%float.
Proof.
  split; [discriminate |].
  apply (loss_scaled_before_backward (T := Toy.torch) Toy.single (Toy.small 2 16 1) 1 1 1 totals0
           (Toy.start (Toy.small 2 16 1))).
  discriminate.
Defined.

(** Resuming with no file, with a model state that does not fit, and with a
    checkpoint that fits. *)
Lemma resume_three_ways :
  resume Toy.resuming = true /\
  resume_checkpoint Toy.resuming (construct Toy.resuming Toy.no_files []) =
    Raise FileNotFoundError (construct Toy.resuming Toy.no_files []) /\
  (exists msg,
     resume_checkpoint Toy.resuming
       (construct Toy.resuming (Toy.one_file (Toy.saved (-1) 3)) []) =
     Raise (RuntimeError msg)
       (construct Toy.resuming (Toy.one_file (Toy.saved (-1) 3)) [])) /\
  (exists w',
     resume_checkpoint Toy.resuming
       (construct Toy.resuming (Toy.one_file (Toy.saved 7 3)) []) = Ok tt w' /\
     model w' = (7, 0) /\ optimizer w' = 3 /\
     log w' = [Print "Previous checkpoint resumed successfully"]).
Proof.
  split; [reflexivity |]. split; [| split].
  - apply (resume_applies_checkpoint_or_fails Toy.single Toy.resuming
             (construct Toy.resuming Toy.no_files []) eq_refl).
    reflexivity.
  - apply (proj1 (proj2 (resume_applies_checkpoint_or_fails Toy.single Toy.resuming
             (construct Toy.resuming (Toy.one_file (Toy.saved (-1) 3)) []) eq_refl))
             (Toy.saved (-1) 3)); reflexivity.
  - apply (proj2 (proj2 (resume_applies_checkpoint_or_fails Toy.single Toy.resuming
             (construct Toy.resuming (Toy.one_file (Toy.saved 7 3)) []) eq_refl))
             (Toy.saved 7 3) (7, 0) 3); reflexivity.
Defined.

(** Two configured steps over four workers: [main] ends in a
    [ZeroDivisionError]. *)
Lemma two_steps_four_workers_crash :
  IS_DDP (Toy.worker 0 4) = true /\
  validate_args (Toy.small 2 16 1) = inr tt /\
  gradient_accumulation_steps (Toy.small 2 16 1) < WORLD_SIZE (Toy.worker 0 4) /\
  exists trace,
    main (Toy.worker 0 4) (Toy.small 2 16 1) Toy.no_files =
    Crashed ZeroDivisionError trace.
Proof.
  split; [reflexivity |]. split; [reflexivity |]. split; [reflexivity |].
  destruct (world_size_above_steps_divides_by_zero (Toy.worker 0 4) (Toy.small 2 16 1)
              eq_refl eq_refl eq_refl) as (a' & Hsetup & _ & _ & _ & Hmain).
  apply Hmain; [reflexivity | reflexivity |].
  cbn in Hsetup. injection Hsetup as <-. discriminate.
Defined.

(** Eight accumulation steps and an epoch of four batches; and an epoch of
    no batch. *)
Lemma short_epochs_raise :
  (exists w',
     train_epoch Toy.single (Toy.small 8 16 1) 1 (Toy.start (Toy.small 8 16 1)) =
       Raise ZeroDivisionError w' /\
     optimizer w' = 0) /\
  train_epoch Toy.single (Toy.small 8 0 1) 1 (Toy.start (Toy.small 8 0 1)) =
    Raise ZeroDivisionError (Toy.start (Toy.small 8 0 1)).
Proof.
  split.
  - destruct (proj1 (short_epoch_report_raises Toy.single (Toy.small 8 16 1) 1
                       (Toy.start (Toy.small 8 16 1))) eq_refl)
      as (t & w' & _ & _ & _ & Ho & _ & _ & _ & Hrun).
    exists w'. split; [exact Hrun | exact Ho].
  - apply (proj2 (short_epoch_report_raises Toy.single (Toy.small 8 0 1) 1
                    (Toy.start (Toy.small 8 0 1)))).
    reflexivity.
Defined.

(** The run of the specification's example, from [main]: batch size 4, two
    accumulation steps, one epoch of four batches.  Two optimizer steps, each
    over two pending gradients, and a report of loss 0.5 and norm 1. *)
Example main_two_steps_four_batches :
  match main Toy.single (Toy.small 2 16 1) Toy.no_files with
  | Completed w =>
      match last (log w) (Print "") with
      | PrintEpoch epoch average_cross_entropy average_gradient_norm =>
          Some (optimizer w, model w, optimizer_steps (log w),
                epoch, average_cross_entropy, average_gradient_norm)
      | _ => None
      end
  | Crashed _ _ => None
  end = Some (2, (4, 0), 2, 1, 0.5%float, 1%float).
Proof. vm_compute. reflexivity. Qed.

(** A full evaluation pass on the small instance, after one optimizer step. *)
Example evaluate_on_small_instance :
  exists w',
    evaluate Toy.single (Toy.small 2 16 1) 10
      (with_optimizer (Toy.start (Toy.small 2 16 1)) 1) = Ok tt w' /\
    optimizer w' = 1 /\ training w' = true /\ perplexity_metric w' = 0 /\
    log w' =
      [Forward {| device_type := "cuda"; autocast_dtype := bfloat16 |} false false;
       MetricUpdate;
       Forward {| device_type := "cuda"; autocast_dtype := bfloat16 |} false false;
       MetricUpdate;
       MetricCompute; PrintPerplexity 2%float; MetricReset].
Proof. eexists. repeat split. Qed.

End Worked.

(** * Further properties of [main] *)

(** ** Start-up *)

(** X1.  Validation returns normally exactly when the five counts are at
    least one and the learning rate is not below zero (a test that zero
    passes); in every other case it raises a [ValueError]. *)
Theorem validation_accepts_exactly (a : Args) :
  (validate_args a = inr tt <->
   (batch_size a <? 1) = false /\
   (gradient_accumulation_steps a <? 1) = false /\
   PrimFloat.ltb (learning_rate a) 0%float = false /\
   (num_epochs a <? 1) = false /\
   (eval_epochs a <? 1) = false /\
   (checkpoint_epochs a <? 1) = false) /\
  (validate_args a <> inr tt -> exists msg, validate_args a = inl (ValueError msg)).
Proof.
  split.
  - rewrite validate_args_accepts, !Z.ltb_ge. reflexivity.
  - unfold validate_args.
    repeat match goal with
           | |- context [if ?c then _ else _] => destruct c
           end;
      try (intros _; eexists; reflexivity).
    intros C. contradiction.
Qed.

Section StartUp.

Context {T : Torch}.

(** X2.  A count below one ends [main] in a [ValueError] before anything
    else has happened: no process group, no object built, nothing logged,
    whatever the environment and the files. *)
Theorem main_rejects_bad_counts_first (env : Env) (args : Args) (fs : Files) :
  batch_size args < 1 \/ gradient_accumulation_steps args < 1 \/
  num_epochs args < 1 \/ eval_epochs args < 1 \/ checkpoint_epochs args < 1 ->
  exists msg, main env args fs = Crashed (ValueError msg) [].
Proof.
  intros H. destruct (validate_args_rejects_counts args H) as (msg & E).
  exists msg. unfold main. rewrite E. reflexivity.
Qed.

(** X3.  With valid counts, a device argument that contains ["cuda"]
    anywhere ends [main] in the [RuntimeError] of line 88 when CUDA is not
    available, again before anything has happened; a device argument without
    ["cuda"] passes the check, and in a distributed run the set-up then
    selects a CUDA device all the same. *)
Theorem main_checks_cuda_on_the_given_device (env : Env) (args : Args) (fs : Files) :
  validate_args args = inr tt ->
  cuda_is_available env = false ->
  (contains "cuda" (device args) = true ->
   main env args fs = Crashed (RuntimeError "Cuda is not available.") []) /\
  (contains "cuda" (device args) = false ->
   check_device env args = inr tt /\
   (IS_DDP env = true -> WORLD_SIZE env <> 0 ->
    exists a', snd (ddp_setup env args) = inr a' /\
               contains "cuda" (device a') = true)).
Proof.
  intros Hval Hcuda. split.
  - intros Hdev. unfold main, check_device. rewrite Hval, Hdev, Hcuda.
    reflexivity.
  - intros Hdev. unfold check_device. rewrite Hdev. split; [reflexivity |].
    intros Hddp Hws. unfold ddp_setup. rewrite Hddp. unfold mod_, floordiv.
    destruct (Z.eqb_spec (WORLD_SIZE env) 0) as [E | _]; [contradiction |].
    eexists. split; [reflexivity |].
    cbn [gradient_accumulation_steps set_device].
    destruct (truthy _); reflexivity.
Qed.

End StartUp.

(** X4.  In a distributed run with a world size other than zero, the device
    argument is replaced: whatever [--device] was, the device after the
    set-up is ["cuda:"] followed by the local rank, the set-up opens with the
    process group and the device selection, and the autocast context is built
    for that device with [float32], whether or not bf16 is supported. *)
Theorem ddp_setup_overrides_device (env : Env) (a : Args) :
  IS_DDP env = true ->
  WORLD_SIZE env <> 0 ->
  exists a' later,
    ddp_setup env a =
      (InitProcessGroup DDP_BACKEND (WORLD_SIZE env)
         :: SetDevice ("cuda:" ++ str (LOCAL_RANK env)) :: later,
       inr a') /\
    device a' = ("cuda:" ++ str (LOCAL_RANK env))%string /\
    forward_context env a' =
      {| device_type := "cuda:" ++ str (LOCAL_RANK env);
         autocast_dtype := float32 |}.
Proof.
  intros Hddp Hws. unfold ddp_setup. rewrite Hddp. unfold mod_, floordiv.
  destruct (Z.eqb_spec (WORLD_SIZE env) 0) as [E | _]; [contradiction |].
  cbn [gradient_accumulation_steps set_device device].
  destruct (negb _); destruct (truthy _) eqn:Ht; cbn [app];
    do 2 eexists; (split; [reflexivity |]); split; reflexivity.
Qed.

(** X5.  Seeding.  Outside a distributed run the process is seeded with the
    configured seed unless there is none or it is zero.  In a distributed
    run with a world size other than zero it is seeded with the configured
    seed plus the rank, unless there is no seed, the seed is zero, or the sum
    is zero. *)
Theorem seeding_offsets_by_rank (env : Env) (a : Args) :
  (IS_DDP env = false ->
   ddp_setup env a = ([], inr a) /\
   seeding a =
     match seed a with
     | None => []
     | Some s => if s =? 0 then [] else [ManualSeed s]
     end) /\
  (IS_DDP env = true -> WORLD_SIZE env <> 0 ->
   exists a',
     snd (ddp_setup env a) = inr a' /\
     seeding a' =
       match seed a with
       | None => []
       | Some s =>
           if (s =? 0) || (s + RANK env =? 0) then []
           else [ManualSeed (s + RANK env)]
       end).
Proof.
  split.
  - intros Hddp. unfold ddp_setup. rewrite Hddp. split; [reflexivity |].
    unfold seeding, truthy. destruct (seed a) as [s |]; [| reflexivity].
    destruct (s =? 0); reflexivity.
  - intros Hddp Hws. unfold ddp_setup. rewrite Hddp. unfold mod_, floordiv.
    destruct (Z.eqb_spec (WORLD_SIZE env) 0) as [E | _]; [contradiction |].
    cbn [gradient_accumulation_steps set_device seed
         set_gradient_accumulation_steps].
    unfold seeding.
    destruct (seed a) as [s |] eqn:Hs; cbn [truthy].
    + destruct (s =? 0) eqn:Hz; cbn [negb orb option_map].
      * eexists. split; [reflexivity |].
        cbn [seed set_gradient_accumulation_steps set_device].
        rewrite Hs. cbn [truthy]. rewrite Hz. reflexivity.
      * eexists. split; [reflexivity |].
        cbn [seed set_seed truthy].
        destruct (s + RANK env =? 0); reflexivity.
    + eexists. split; [reflexivity |].
      cbn [seed set_gradient_accumulation_steps set_device].
      rewrite Hs. reflexivity.
Qed.

(** ** Effects of statements, whatever their outcome *)

Section EffectFacts.

Context {T : Torch}.

Lemma count_events_app (p : event -> bool) (l l' : list event) :
  count_events p (l ++ l') = count_events p l + count_events p l'.
Proof.
  unfold count_events. rewrite filter_app, List.length_app. lia.
Qed.

Lemma count_events_none (p : event -> bool) (P : event -> Prop) (d : list event) :
  (forall e, P e -> p e = false) -> Forall P d -> count_events p d = 0.
Proof.
  intros Hp Hd. unfold count_events.
  induction Hd as [| e d He _ IH]; [reflexivity |].
  cbn [filter]. rewrite (Hp e He). exact IH.
Qed.

Lemma emits_only_weaken {A : Type} (P Q : event -> Prop) (m : M A) :
  (forall e, P e -> Q e) -> emits_only P m -> emits_only Q m.
Proof.
  intros HPQ Hm w. destruct (Hm w) as (d & Hl & Hd).
  exists d. split; [exact Hl |]. eapply Forall_impl; eassumption.
Qed.

Lemma emits_only_ret {A : Type} (P : event -> Prop) (x : A) :
  emits_only P (ret x).
Proof. intros w. exists []. cbn. rewrite app_nil_r. split; constructor. Qed.

Lemma emits_only_lift {A : Type} (P : event -> Prop) (r : result A) :
  emits_only P (lift r).
Proof.
  intros w. exists []. unfold lift. destruct r; cbn; rewrite app_nil_r;
    split; constructor.
Qed.

Lemma emits_only_bind {A B : Type} (P : event -> Prop) (m : M A) (k : A -> M B) :
  emits_only P m -> (forall x, emits_only P (k x)) -> emits_only P (bind m k).
Proof.
  intros Hm Hk w. unfold bind.
  destruct (Hm w) as (d & Hl & Hd).
  destruct (m w) as [x w1 | e w1]; cbn [final] in Hl.
  - destruct (Hk x w1) as (d' & Hl' & Hd').
    exists (d ++ d'). split.
    + rewrite Hl', Hl, app_assoc. reflexivity.
    + apply Forall_app. split; assumption.
  - exists d. split; assumption.
Qed.

Lemma emits_only_say (P : event -> Prop) (e : event) :
  P e -> emits_only P (say e).
Proof.
  intros He w. exists [e]. split; [reflexivity |]. constructor; [exact He | constructor].
Qed.

Lemma emits_only_silent (P : event -> Prop) (f : world -> world) :
  (forall w, log (f w) = log w) -> emits_only P (update f).
Proof.
  intros Hf w. exists []. cbn. rewrite Hf, app_nil_r. split; constructor.
Qed.

Lemma emits_only_when (P : event -> Prop) (b : bool) (m : M unit) :
  emits_only P m -> emits_only P (when b m).
Proof. intros Hm. destruct b; [exact Hm | apply emits_only_ret]. Qed.

Lemma keeps_ret {A B : Type} (f : world -> B) (x : A) : keeps f (ret x).
Proof. intros w. reflexivity. Qed.

Lemma keeps_lift {A B : Type} (f : world -> B) (r : result A) : keeps f (lift r).
Proof. intros w. unfold lift. destruct r; reflexivity. Qed.

Lemma keeps_bind {A B C : Type} (f : world -> C) (m : M A) (k : A -> M B) :
  keeps f m -> (forall x, keeps f (k x)) -> keeps f (bind m k).
Proof.
  intros Hm Hk w. unfold bind. specialize (Hm w).
  destruct (m w) as [x w1 | e w1]; cbn [final] in Hm.
  - rewrite Hk. exact Hm.
  - exact Hm.
Qed.

Lemma keeps_update {B : Type} (f : world -> B) (g : world -> world) :
  (forall w, f (g w) = f w) -> keeps f (update g).
Proof. intros Hg w. apply Hg. Qed.

Lemma keeps_when {B : Type} (f : world -> B) (b : bool) (m : M unit) :
  keeps f m -> keeps f (when b m).
Proof. intros Hm. destruct b; [exact Hm | apply keeps_ret]. Qed.

Variables (env : Env) (a : Args).

Lemma train_batch_emits (step : Z) (xy : Input * Target) (t : Totals) :
  emits_only (fun e => is_training_event e = true) (train_batch env a step xy t).
Proof.
  unfold train_batch.
  apply emits_only_bind.
  { intros w. eexists [_]. split; [reflexivity |]. repeat constructor. }
  intros loss. apply emits_only_bind.
  { intros w. eexists [_]. split; [reflexivity |]. repeat constructor. }
  intros _. apply emits_only_bind; [apply emits_only_lift |].
  intros r. destruct (r =? 0); [| apply emits_only_ret].
  apply emits_only_bind.
  { intros w. unfold clip_gradients. destruct (clip_grad_norm_ _ _) as [m norm].
    eexists [_]. split; [reflexivity |]. repeat constructor. }
  intros norm. apply emits_only_bind.
  { intros w. unfold step_optimizer, update.
    destruct (optimizer_step _ _) as [o m].
    eexists [_]. split; [reflexivity |]. repeat constructor. }
  intros _. apply emits_only_bind; [| intros _; apply emits_only_ret].
  intros w. eexists [_]. split; [reflexivity |]. repeat constructor.
Qed.

Lemma train_batch_keeps (step : Z) (xy : Input * Target) (t : Totals) :
  keeps outside_training (train_batch env a step xy t).
Proof.
  unfold train_batch.
  apply keeps_bind; [intros w; reflexivity |].
  intros loss. apply keeps_bind; [intros w; reflexivity |].
  intros _. apply keeps_bind; [apply keeps_lift |].
  intros r. destruct (r =? 0); [| apply keeps_ret].
  apply keeps_bind.
  { intros w. unfold clip_gradients. destruct (clip_grad_norm_ _ _). reflexivity. }
  intros norm. apply keeps_bind.
  { intros w. unfold step_optimizer, update. destruct (optimizer_step _ _).
    reflexivity. }
  intros _. apply keeps_bind; [intros w; reflexivity | intros _; apply keeps_ret].
Qed.

Lemma train_epoch_emits (epoch : Z) : emits_only (fun e => is_training_event e = true) (train_epoch env a epoch).
Proof.
  unfold train_epoch. apply emits_only_bind.
  - generalize 1 totals0.
    induction (train_loader a epoch) as [| xy rest IH]; intros step t.
    + apply emits_only_ret.
    + cbn [train_batches]. apply emits_only_bind; [apply train_batch_emits |].
      intros t'. apply IH.
  - intros t. unfold report.
    apply emits_only_bind; [apply emits_only_lift |]. intros ce.
    apply emits_only_bind; [apply emits_only_lift |]. intros gn.
    apply emits_only_say. reflexivity.
Qed.

Lemma train_epoch_keeps (epoch : Z) :
  keeps outside_training (train_epoch env a epoch).
Proof.
  unfold train_epoch. apply keeps_bind.
  - generalize 1 totals0.
    induction (train_loader a epoch) as [| xy rest IH]; intros step t.
    + apply keeps_ret.
    + cbn [train_batches]. apply keeps_bind; [apply train_batch_keeps |].
      intros t'. apply IH.
  - intros t. unfold report.
    apply keeps_bind; [apply keeps_lift |]. intros ce.
    apply keeps_bind; [apply keeps_lift |]. intros gn.
    intros w. reflexivity.
Qed.

(** X6.  Training an epoch, whether it returns or raises, logs nothing but
    forward passes, backward passes, clipping, optimizer steps, gradient
    zeroing and the epoch report, and leaves the files, the perplexity
    metric, the training flag and the autograd switch as they were. *)
Theorem train_epoch_touches_only_training (epoch : Z) (w : world) :
  (exists d,
     log (final (train_epoch env a epoch w)) = log w ++ d /\
     Forall (fun e => is_training_event e = true) d) /\
  files (final (train_epoch env a epoch w)) = files w /\
  perplexity_metric (final (train_epoch env a epoch w)) = perplexity_metric w /\
  training (final (train_epoch env a epoch w)) = training w /\
  grad_enabled (final (train_epoch env a epoch w)) = grad_enabled w.
Proof.
  split; [exact (train_epoch_emits epoch w) |].
  pose proof (train_epoch_keeps epoch w) as H.
  unfold outside_training in H. injection H as Hf Hp Ht Hg.
  repeat split; assumption.
Qed.

End EffectFacts.

(** ** More on the training loop *)

Section LoopMore.

Context {T : Torch}.
Variables (env : Env) (a : Args).





Lemma count_sync_batch (ctx : Autocast) (tr g : bool) (loss : Tensor) (step : Z) :
  count_events is_synchronized_backward
    (Forward ctx tr g :: Backward loss (no_sync env a step) :: boundary_events a step) =
  if no_sync env a step then 0 else 1.
Proof.
  unfold boundary_events.
  destruct (no_sync env a step);
    destruct (step mod gradient_accumulation_steps a =? 0); reflexivity.
Qed.

Lemma count_backward_batch (ctx : Autocast) (tr g ns : bool) (loss : Tensor) (step : Z) :
  count_events is_backward
    (Forward ctx tr g :: Backward loss ns :: boundary_events a step) = 1.
Proof.
  unfold boundary_events.
  destruct (step mod gradient_accumulation_steps a =? 0); reflexivity.
Qed.

(** The synchronized backward passes of the loop from any step on. *)
Lemma train_batches_synchronized (bs : list (Input * Target)) :
  gradient_accumulation_steps a <> 0 ->
  forall (step : Z) (t : Totals) (w : world),
  exists t' w',
    train_batches env a step bs t w = Ok t' w' /\
    count_events is_backward (log w') =
      count_events is_backward (log w) + Z.of_nat (List.length bs) /\
    count_events is_synchronized_backward (log w') =
      count_events is_synchronized_backward (log w) +
      if IS_DDP env
      then (if (step <=? gradient_accumulation_steps a) &&
               (gradient_accumulation_steps a <? step + Z.of_nat (List.length bs))
            then 1 else 0)
      else Z.of_nat (List.length bs).
Proof.
  intros Hgas. induction bs as [| xy rest IH]; intros step t w.
  - exists t, w. cbn [train_batches List.length Z.of_nat]. unfold ret.
    split; [reflexivity |]. split; [lia |].
    destruct (IS_DDP env); [| lia].
    destruct (Z.leb_spec step (gradient_accumulation_steps a));
      destruct (Z.ltb_spec (gradient_accumulation_steps a) (step + 0));
      cbn [andb]; lia.
  - cbn [train_batches]. unfold bind.
    destruct (train_batch_runs env a step xy t w Hgas)
      as (t1 & w1 & Hrun & Hlog & _).
    rewrite Hrun.
    destruct (IH (step + 1) t1 w1) as (t2 & w2 & Hrun2 & Hb2 & Hs2).
    exists t2, w2. split; [exact Hrun2 |].
    rewrite Hlog, count_events_app in Hb2, Hs2.
    rewrite count_backward_batch in Hb2. rewrite count_sync_batch in Hs2.
    cbn [List.length]. rewrite Nat2Z.inj_succ.
    split; [lia |].
    rewrite Hs2. unfold no_sync.
    destruct (IS_DDP env); cbn [andb negb]; [| lia].
    destruct (Z.eqb_spec step (gradient_accumulation_steps a));
      destruct (Z.leb_spec step (gradient_accumulation_steps a));
      destruct (Z.leb_spec (step + 1) (gradient_accumulation_steps a));
      destruct (Z.ltb_spec (gradient_accumulation_steps a)
                           (step + 1 + Z.of_nat (List.length rest)));
      destruct (Z.ltb_spec (gradient_accumulation_steps a)
                           (step + Z.succ (Z.of_nat (List.length rest))));
      cbn [andb negb]; lia.
Qed.

(** X9.  How often the gradients are synchronized in an epoch.  With
    positive accumulation steps the loop over [n] batches returns after [n]
    backward passes and [n // gas] optimizer steps.  In a distributed run at
    most one of these backward passes ran outside [no_sync]: exactly one when
    the epoch has at least [gas] batches, none otherwise.  Outside a
    distributed run none of them ran inside [no_sync]. *)
Theorem one_synchronized_backward_per_epoch (bs : list (Input * Target)) (w : world) :
  0 < gradient_accumulation_steps a ->
  let gas := gradient_accumulation_steps a in
  let n := Z.of_nat (List.length bs) in
  exists t w',
    train_batches env a 1 bs totals0 w = Ok t w' /\
    count_events is_backward (log w') = count_events is_backward (log w) + n /\
    optimizer_steps (log w') = optimizer_steps (log w) + n / gas /\
    count_events is_synchronized_backward (log w') =
      count_events is_synchronized_backward (log w) +
      if IS_DDP env then (if gas <=? n then 1 else 0) else n.
Proof.
  intros Hgas gas n.
  destruct (train_batches_synchronized bs ltac:(lia) 1 totals0 w)
    as (t & w' & Hrun & Hb & Hs).
  destruct (train_batches_runs env a bs Hgas 1 totals0 w)
    as (t0 & w0 & Hrun0 & _ & _ & Ho & _).
  rewrite Hrun in Hrun0. injection Hrun0 as <- <-.
  exists t, w'. split; [exact Hrun |]. split; [exact Hb |]. split.
  - rewrite Ho. fold n gas.
    replace (1 + n - 1) with n by lia.
    replace ((1 - 1) / gas) with 0 by reflexivity. lia.
  - rewrite Hs. fold n gas. destruct (IS_DDP env); [| reflexivity].
    destruct (Z.leb_spec 1 gas); destruct (Z.ltb_spec gas (1 + n));
      destruct (Z.leb_spec gas n); cbn [andb]; lia.
Qed.

End LoopMore.

(** ** Evaluation, checkpoints and the epochs *)

Section EpochsMore.

Context {T : Torch}.
Variables (env : Env) (a : Args).

(** The exact log of the test loop. *)
Lemma eval_batches_log (bs : list (Input * Target)) :
  forall w : world,
  training w = false ->
  exists w',
    eval_batches env a bs w = Ok tt w' /\
    log w' = log w ++ flat_map (fun _ => eval_batch_events env a) bs /\
    optimizer w' = optimizer w /\ model w' = model w /\ files w' = files w /\
    training w' = false /\ grad_enabled w' = grad_enabled w.
Proof.
  induction bs as [| xy rest IH]; intros w Htr.
  - exists w. cbn. rewrite app_nil_r. repeat split. exact Htr.
  - cbn [eval_batches]. unfold bind, eval_batch.
    cbn [model training grad_enabled with_grad_enabled emit with_metric
         perplexity_metric].
    match goal with |- context [eval_batches env a rest ?w1] =>
      destruct (IH w1 Htr) as (w' & Hrun & Hl & Ho & Hm & Hf & Ht & Hg)
    end.
    cbn in Hl, Ho, Hm, Hf, Hg.
    exists w'. split; [exact Hrun |].
    repeat split; try assumption.
    rewrite Hl, Htr. cbn [flat_map eval_batch_events].
    rewrite <- !app_assoc. reflexivity.
Qed.

Lemma count_eval_batch_events (p : event -> bool) (bs : list (Input * Target)) :
  p (Forward (forward_context env a) false false) = false ->
  p MetricUpdate = false ->
  count_events p (flat_map (fun _ => eval_batch_events env a) bs) = 0.
Proof.
  intros E1 E2. unfold count_events.
  induction bs as [| xy rest IH]; [reflexivity |].
  cbn [flat_map eval_batch_events app filter]. rewrite E1, E2. exact IH.
Qed.

(** What an evaluation pass leaves, for the proofs below. *)
Lemma evaluate_runs (epoch : Z) (w : world) :
  exists w' perplexity,
    evaluate env a epoch w = Ok tt w' /\
    log w' =
      log w ++
      flat_map (fun _ => eval_batch_events env a) (test_loader a epoch) ++
      [MetricCompute; PrintPerplexity perplexity; MetricReset] /\
    count_events is_metric_compute (log w') =
      count_events is_metric_compute (log w) + 1 /\
    count_events is_save (log w') = count_events is_save (log w) /\
    files w' = files w /\ training w' = true.
Proof.
  unfold evaluate, bind, update.
  destruct (eval_batches_log (test_loader a epoch) (with_training w false) eq_refl)
    as (w1 & Hrun & Hl & Ho & Hm & Hf & Ht & Hg).
  rewrite Hrun. cbn in Hl, Hf.
  do 2 eexists. split; [reflexivity |]. cbn [log emit with_metric with_training
    files training].
  split; [rewrite Hl, <- !app_assoc; reflexivity |].
  rewrite Hl, !count_events_app.
  rewrite !count_eval_batch_events by reflexivity. cbn.
  repeat split; try lia. exact Hf.
Qed.

(** X10.  An evaluation pass always returns, and its log is exactly: for
    each test batch, in order, one forward pass in evaluation mode with the
    autograd switch off followed by one metric update; then the metric
    computation, the perplexity line with the computed value, and the metric
    reset.  An empty test set still computes, prints and resets. *)
Theorem evaluate_log (epoch : Z) (w : world) :
  exists w' perplexity,
    evaluate env a epoch w = Ok tt w' /\
    log w' =
      log w ++
      flat_map (fun _ => eval_batch_events env a) (test_loader a epoch) ++
      [MetricCompute; PrintPerplexity perplexity; MetricReset] /\
    count_events is_metric_compute (log w') =
      count_events is_metric_compute (log w) + 1 /\
    count_events is_save (log w') = count_events is_save (log w) /\
    files w' = files w /\ training w' = true.
Proof. exact (evaluate_runs epoch w). Qed.

Lemma evaluate_emits (epoch : Z) :
  emits_only (fun e => is_destroy e = false /\ is_update_event e = false /\
                       is_backward e = false)
    (evaluate env a epoch).
Proof.
  intros w. destruct (evaluate_runs epoch w) as (w' & p & Hrun & Hl & _).
  rewrite Hrun. cbn [final]. eexists. split; [exact Hl |].
  clear Hl. apply Forall_app. split.
  - induction (test_loader a epoch) as [| xy rest IH]; [constructor |].
    cbn [flat_map eval_batch_events app]. repeat constructor. exact IH.
  - repeat constructor.
Qed.

(** What saving leaves, for the proofs below. *)
Lemma save_checkpoint_runs (w : world) :
  exists w',
    save_checkpoint a w = Ok tt w' /\
    torch_load (checkpoint_path a) w' =
      Ok {| ck_model := model_state_dict (model w);
            ck_optimizer := optimizer_state_dict (optimizer w);
            ck_model_args := model_args a |} w' /\
    (forall p, p <> checkpoint_path a -> files w' p = files w p) /\
    model w' = model w /\ optimizer w' = optimizer w /\
    log w' = log w ++ [Save (checkpoint_path a); Print "Checkpoint saved"].
Proof.
  unfold save_checkpoint, bind, update, say, torch_load.
  eexists. split; [reflexivity |].
  cbn [files emit with_files model optimizer log]. unfold write_file.
  rewrite String.eqb_refl. split; [reflexivity |]. split.
  - intros p Hp. apply String.eqb_neq in Hp. rewrite Hp. reflexivity.
  - repeat split. rewrite <- app_assoc. reflexivity.
Qed.

(** X18.  Resuming is not all-or-nothing.  When the checkpoint's model
    state fits the live model and its optimizer state does not fit the live
    optimizer, the resumption raises a [ValueError] after the model state has
    been loaded: the world it leaves has the loaded model, the optimizer it
    started with, and no resumption line in the log. *)
Theorem resume_with_unfit_optimizer_state
    (checkpoint : Checkpoint) (m : GPT) (w : world) :
  resume a = true ->
  files w (checkpoint_path a) = Some checkpoint ->
  model_load_state_dict (model w) (ck_model checkpoint) = Some m ->
  optimizer_load_state_dict (optimizer w) (ck_optimizer checkpoint) = None ->
  exists msg w',
    resume_checkpoint a w = Raise (ValueError msg) w' /\
    model w' = m /\ optimizer w' = optimizer w /\ log w' = log w.
Proof.
  intros Hres Hf Hm Ho.
  unfold resume_checkpoint, when. rewrite Hres.
  unfold bind, torch_load, load_model, load_optimizer.
  rewrite Hf, Hm. cbn [optimizer with_model]. rewrite Ho.
  do 2 eexists. split; [reflexivity |]. repeat split.
Qed.

End EpochsMore.

(** ** The epochs and the end of the run *)

Section RunMore.

Context {T : Torch}.
Variables (env : Env) (a : Args).

Lemma save_checkpoint_emits :
  emits_only (fun e => is_destroy e = false) (save_checkpoint a).
Proof.
  intros w. destruct (save_checkpoint_runs a w) as (w' & Hrun & _ & _ & _ & _ & Hl).
  rewrite Hrun. eexists. split; [exact Hl |]. repeat constructor.
Qed.

Lemma resume_checkpoint_emits :
  emits_only (fun e => is_destroy e = false) (resume_checkpoint a).
Proof.
  unfold resume_checkpoint. apply emits_only_when.
  apply emits_only_bind.
  { intros w. exists []. unfold torch_load. rewrite app_nil_r.
    destruct (files w _); split; constructor. }
  intros ck. apply emits_only_bind.
  { intros w. exists []. unfold load_model. rewrite app_nil_r.
    destruct (model_load_state_dict _ _); split; constructor. }
  intros _. apply emits_only_bind.
  { intros w. exists []. unfold load_optimizer. rewrite app_nil_r.
    destruct (optimizer_load_state_dict _ _); split; constructor. }
  intros _. apply emits_only_say. reflexivity.
Qed.

Lemma epochs_emit (l : list Z) :
  emits_only (fun e => is_destroy e = false) (epochs env a l).
Proof.
  induction l as [| epoch rest IH]; [apply emits_only_ret |].
  cbn [epochs]. apply emits_only_bind; [| intros _; exact IH].
  unfold epoch_body.
  apply emits_only_bind.
  { eapply emits_only_weaken; [| apply train_epoch_emits].
    intros e He. destruct e; try reflexivity; discriminate. }
  intros _. apply emits_only_bind; [apply emits_only_lift |].
  intros r. apply emits_only_bind.
  { apply emits_only_when. eapply emits_only_weaken; [| apply evaluate_emits].
    intros e (He & _). exact He. }
  intros _. apply emits_only_bind; [apply emits_only_lift |].
  intros r'. apply emits_only_when. apply save_checkpoint_emits.
Qed.

(** X13.  A worker that is not the coordinator never evaluates and never
    saves: whatever list of epochs it runs and however that ends, it logs
    only training events and epoch reports, and it leaves the files, the
    perplexity metric, the training flag and the autograd switch as they
    were. *)
Theorem non_coordinator_only_trains (l : list Z) (w : world) :
  IS_MASTER env = false ->
  (exists d,
     log (final (epochs env a l w)) = log w ++ d /\
     Forall (fun e => is_training_event e = true) d) /\
  files (final (epochs env a l w)) = files w /\
  perplexity_metric (final (epochs env a l w)) = perplexity_metric w /\
  training (final (epochs env a l w)) = training w /\
  grad_enabled (final (epochs env a l w)) = grad_enabled w.
Proof.
  intros Hm.
  assert (Hbody : forall epoch,
            emits_only (fun e => is_training_event e = true) (epoch_body env a epoch) /\
            keeps outside_training (epoch_body env a epoch)).
  { intros epoch. unfold epoch_body. rewrite Hm. split.
    - apply emits_only_bind; [apply train_epoch_emits |].
      intros _. apply emits_only_bind; [apply emits_only_lift |].
      intros r. rewrite andb_false_r. apply emits_only_bind; [apply emits_only_ret |].
      intros _. apply emits_only_bind; [apply emits_only_lift |].
      intros r'. rewrite andb_false_r. apply emits_only_ret.
    - apply keeps_bind; [apply train_epoch_keeps |].
      intros _. apply keeps_bind; [apply keeps_lift |].
      intros r. rewrite andb_false_r. apply keeps_bind; [apply keeps_ret |].
      intros _. apply keeps_bind; [apply keeps_lift |].
      intros r'. rewrite andb_false_r. apply keeps_ret. }
  assert (He : emits_only (fun e => is_training_event e = true) (epochs env a l)).
  { induction l as [| epoch rest IH]; [apply emits_only_ret |].
    cbn [epochs]. apply emits_only_bind; [apply Hbody | intros _; exact IH]. }
  assert (Hk : keeps outside_training (epochs env a l)).
  { clear He. induction l as [| epoch rest IH]; [apply keeps_ret |].
    cbn [epochs]. apply keeps_bind; [apply Hbody | intros _; exact IH]. }
  split; [exact (He w) |].
  specialize (Hk w). unfold outside_training in Hk. injection Hk as Hf Hp Ht Hg.
  repeat split; assumption.
Qed.

(** X14.  The process group is torn down exactly when the run completes.
    When [run] returns, what it logged ends with [destroy_process_group] in a
    distributed run and holds no other; when it raises, it logged none, so a
    run that ends in an exception leaves the process group up. *)
Theorem process_group_destroyed_only_on_completion (w : world) :
  match run env a w with
  | Ok _ w' =>
      exists d,
        log w' = log w ++ d ++ (if IS_DDP env then [DestroyProcessGroup] else []) /\
        count_events is_destroy d = 0
  | Raise _ w' =>
      exists d, log w' = log w ++ d /\ count_events is_destroy d = 0
  end.
Proof.
  assert (Hstep : forall (m : M unit) (k : M unit),
    emits_only (fun e => is_destroy e = false) m ->
    (forall w0, match k w0 with
                | Ok _ w' =>
                    exists d,
                      log w' = log w0 ++ d ++
                               (if IS_DDP env then [DestroyProcessGroup] else []) /\
                      count_events is_destroy d = 0
                | Raise _ w' =>
                    exists d, log w' = log w0 ++ d /\ count_events is_destroy d = 0
                end) ->
    forall w0, match (m ;;; k) w0 with
               | Ok _ w' =>
                   exists d,
                     log w' = log w0 ++ d ++
                              (if IS_DDP env then [DestroyProcessGroup] else []) /\
                     count_events is_destroy d = 0
               | Raise _ w' =>
                   exists d, log w' = log w0 ++ d /\ count_events is_destroy d = 0
               end).
  { intros m k Hm Hk w0. unfold bind.
    destruct (Hm w0) as (d & Hl & Hd).
    assert (Hc : count_events is_destroy d = 0)
      by (eapply count_events_none; [| exact Hd]; auto).
    destruct (m w0) as [[] w1 | e w1]; cbn [final] in Hl.
    - specialize (Hk w1).
      destruct (k w1) as [[] w2 | e w2]; destruct Hk as (d' & Hl' & Hc');
        exists (d ++ d'); rewrite Hl', Hl, count_events_app, Hc, Hc',
          <- ?app_assoc; split; reflexivity.
    - exists d. split; assumption. }
  unfold run.
  apply Hstep; [apply emits_only_say; reflexivity |].
  apply Hstep; [apply emits_only_silent; reflexivity |].
  apply Hstep; [apply emits_only_say; reflexivity |].
  apply Hstep; [apply resume_checkpoint_emits |].
  apply Hstep; [apply emits_only_when, emits_only_silent; reflexivity |].
  apply Hstep; [apply emits_only_silent; reflexivity |].
  apply Hstep; [apply emits_only_say; reflexivity |].
  apply Hstep; [apply epochs_emit |].
  intros w0. unfold when, say, update, ret.
  destruct (IS_DDP env); exists []; split; reflexivity || (cbn; now rewrite app_nil_r).
Qed.

End RunMore.

(** ** Runs that complete *)

Section Completion.

Context {T : Torch}.
Variables (env : Env) (a : Args).

(** An epoch with at least as many batches as the (positive) accumulation
    steps returns. *)
Lemma train_epoch_returns (epoch : Z) (w : world) :
  0 < gradient_accumulation_steps a ->
  gradient_accumulation_steps a <= Z.of_nat (List.length (train_loader a epoch)) ->
  exists w', train_epoch env a epoch w = Ok tt w'.
Proof.
  intros Hgas Hn.
  destruct (train_batches_runs env a (train_loader a epoch) Hgas 1 totals0 w)
    as (t & w1 & Hrun & Hb & Hs & _).
  unfold train_epoch, bind. rewrite Hrun.
  unfold report, bind, lift, truediv, say, update.
  set (n := Z.of_nat (List.length (train_loader a epoch))) in *.
  set (g := gradient_accumulation_steps a) in *.
  replace (1 + n - 1) with n in Hs by lia.
  replace ((1 - 1) / g) with 0 in Hs by reflexivity.
  cbn in Hb, Hs. rewrite Hb, Hs.
  assert (1 <= n / g) by (apply Z.div_le_lower_bound; lia).
  destruct (Z.eqb_spec n 0) as [E | _]; [lia |].
  destruct (Z.eqb_spec (n / g - 0) 0) as [E | _]; [lia |].
  eexists. reflexivity.
Qed.

(** One pass through the body of the epoch loop on the coordinator. *)
Lemma epoch_body_returns (epoch : Z) (w : world) :
  IS_MASTER env = true ->
  0 < gradient_accumulation_steps a ->
  gradient_accumulation_steps a <= Z.of_nat (List.length (train_loader a epoch)) ->
  eval_epochs a <> 0 ->
  checkpoint_epochs a <> 0 ->
  exists w',
    epoch_body env a epoch w = Ok tt w' /\
    count_events is_metric_compute (log w') =
      count_events is_metric_compute (log w) +
      (if epoch mod eval_epochs a =? 0 then 1 else 0) /\
    count_events is_save (log w') =
      count_events is_save (log w) +
      (if epoch mod checkpoint_epochs a =? 0 then 1 else 0) /\
    (epoch mod checkpoint_epochs a = 0 ->
     files w' (checkpoint_path a) =
       Some {| ck_model := model_state_dict (model w');
               ck_optimizer := optimizer_state_dict (optimizer w');
               ck_model_args := model_args a |}) /\
    (epoch mod checkpoint_epochs a <> 0 -> files w' = files w).
Proof.
  intros Hm Hgas Hn He Hc.
  destruct (train_epoch_returns epoch w Hgas Hn) as (w1 & Hrun1).
  destruct (train_epoch_emits env a epoch w) as (d1 & Hl1 & Hd1).
  pose proof (train_epoch_keeps env a epoch w) as Hk1.
  rewrite Hrun1 in Hl1, Hk1. cbn [final] in Hl1, Hk1.
  unfold outside_training in Hk1. injection Hk1 as Hf1 _ _ _.
  assert (Hc1 : count_events is_metric_compute d1 = 0 /\ count_events is_save d1 = 0).
  { split; (eapply count_events_none; [| exact Hd1]);
      intros e; destruct e; cbn; congruence. }
  destruct Hc1 as [Hmc1 Hsv1].
  unfold epoch_body, bind, lift, mod_. rewrite Hrun1, Hm.
  destruct (Z.eqb_spec (eval_epochs a) 0) as [E | _]; [contradiction |].
  destruct (Z.eqb_spec (checkpoint_epochs a) 0) as [E | _]; [contradiction |].
  rewrite !andb_true_r.
  assert (Hev : exists w2,
    when (epoch mod eval_epochs a =? 0) (evaluate env a epoch) w1 = Ok tt w2 /\
    count_events is_metric_compute (log w2) =
      count_events is_metric_compute (log w1) +
      (if epoch mod eval_epochs a =? 0 then 1 else 0) /\
    count_events is_save (log w2) = count_events is_save (log w1) /\
    files w2 = files w1).
  { unfold when. destruct (epoch mod eval_epochs a =? 0).
    - destruct (evaluate_runs env a epoch w1)
        as (w2 & p & Hrun2 & _ & Hmc & Hsv & Hf & _).
      exists w2. repeat split; assumption.
    - exists w1. unfold ret. repeat split; lia. }
  destruct Hev as (w2 & Hrun2 & Hmc2 & Hsv2 & Hf2).
  rewrite Hrun2.
  rewrite Hl1, count_events_app in Hmc2, Hsv2.
  unfold when. destruct (Z.eqb_spec (epoch mod checkpoint_epochs a) 0) as [E | E].
  - destruct (save_checkpoint_runs a w2) as (w3 & Hrun3 & Hload & _ & Hm3 & Ho3 & Hl3).
    exists w3. split; [exact Hrun3 |].
    rewrite Hl3, !count_events_app. cbn.
    split; [lia |]. split; [lia |]. split; [| contradiction].
    intros _. unfold torch_load in Hload.
    destruct (files w3 (checkpoint_path a)) as [c |]; [| discriminate].
    injection Hload as ->. rewrite Hm3, Ho3. reflexivity.
  - exists w2. unfold ret. split; [reflexivity |].
    split; [lia |]. split; [lia |]. split; [contradiction |].
    intros _. congruence.
Qed.

(** X15.  On the coordinator, an epoch whose number is a multiple of the
    checkpoint cadence and that has at least as many batches as the
    (positive) accumulation steps returns with a checkpoint file that holds
    the state dictionaries of the model and the optimizer as they are at the
    end of the epoch (after the evaluation pass, if one ran), with the
    model arguments. *)
Theorem checkpoint_holds_end_of_epoch_state (epoch : Z) (w : world) :
  IS_MASTER env = true ->
  0 < gradient_accumulation_steps a ->
  gradient_accumulation_steps a <= Z.of_nat (List.length (train_loader a epoch)) ->
  eval_epochs a <> 0 ->
  checkpoint_epochs a <> 0 ->
  epoch mod checkpoint_epochs a = 0 ->
  exists w',
    epoch_body env a epoch w = Ok tt w' /\
    files w' (checkpoint_path a) =
      Some {| ck_model := model_state_dict (model w');
              ck_optimizer := optimizer_state_dict (optimizer w');
              ck_model_args := model_args a |}.
Proof.
  intros Hm Hgas Hn He Hc Hmod.
  destruct (epoch_body_returns epoch w Hm Hgas Hn He Hc)
    as (w' & Hrun & _ & _ & Hsaved & _).
  exists w'. split; [exact Hrun | exact (Hsaved Hmod)].
Qed.

(** The epochs [first], [first + 1], ... on the coordinator. *)
Lemma epochs_return (k : nat) :
  IS_MASTER env = true ->
  0 < gradient_accumulation_steps a ->
  0 < eval_epochs a ->
  0 < checkpoint_epochs a ->
  forall (first : nat) (w : world),
  (forall epoch, Z.of_nat first <= epoch < Z.of_nat first + Z.of_nat k ->
     gradient_accumulation_steps a <= Z.of_nat (List.length (train_loader a epoch))) ->
  exists w',
    epochs env a (map Z.of_nat (seq first k)) w = Ok tt w' /\
    count_events is_metric_compute (log w') =
      count_events is_metric_compute (log w) +
      ((Z.of_nat first + Z.of_nat k - 1) / eval_epochs a -
       (Z.of_nat first - 1) / eval_epochs a) /\
    count_events is_save (log w') =
      count_events is_save (log w) +
      ((Z.of_nat first + Z.of_nat k - 1) / checkpoint_epochs a -
       (Z.of_nat first - 1) / checkpoint_epochs a).
Proof.
  intros Hm Hgas He Hc. induction k as [| k IH]; intros first w Hbatches.
  - exists w. cbn [seq map epochs]. unfold ret. split; [reflexivity |].
    rewrite Nat2Z.inj_0, !Z.add_0_r, !Z.sub_diag. split; lia.
  - cbn [seq map epochs]. unfold bind.
    destruct (epoch_body_returns (Z.of_nat first) w Hm Hgas
                ltac:(apply Hbatches; lia) ltac:(lia) ltac:(lia))
      as (w1 & Hrun1 & Hmc1 & Hsv1 & _).
    rewrite Hrun1.
    destruct (IH (S first) w1) as (w2 & Hrun2 & Hmc2 & Hsv2).
    { intros epoch Hep. apply Hbatches. lia. }
    exists w2. split; [exact Hrun2 |].
    pose proof (div_step (Z.of_nat first) _ He) as Hde.
    pose proof (div_step (Z.of_nat first) _ Hc) as Hdc.
    rewrite !Nat2Z.inj_succ in *.
    replace (Z.succ (Z.of_nat first) + Z.of_nat k - 1)
      with (Z.of_nat first + Z.succ (Z.of_nat k) - 1) in * by lia.
    replace (Z.succ (Z.of_nat first) - 1) with (Z.of_nat first) in * by lia.
    split; lia.
Qed.

(** The epochs 1 to [num_epochs] on the coordinator, with the teardown
    count. *)
Lemma epochs_evaluate_and_save_aux (w : world) :
  IS_MASTER env = true ->
  0 < gradient_accumulation_steps a ->
  0 < eval_epochs a ->
  0 < checkpoint_epochs a ->
  0 <= num_epochs a ->
  (forall epoch, 1 <= epoch <= num_epochs a ->
     gradient_accumulation_steps a <= Z.of_nat (List.length (train_loader a epoch))) ->
  exists w',
    epochs env a (range1 (num_epochs a)) w = Ok tt w' /\
    count_events is_metric_compute (log w') =
      count_events is_metric_compute (log w) + num_epochs a / eval_epochs a /\
    count_events is_save (log w') =
      count_events is_save (log w) + num_epochs a / checkpoint_epochs a /\
    count_events is_destroy (log w') = count_events is_destroy (log w).
Proof.
  intros Hm Hgas He Hc Hn Hbatches.
  destruct (epochs_return (Z.to_nat (num_epochs a)) Hm Hgas He Hc 1%nat w)
    as (w' & Hrun & Hmc & Hsv).
  { intros epoch Hep. apply Hbatches. lia. }
  exists w'. split; [exact Hrun |].
  rewrite Z2Nat.id in Hmc, Hsv by exact Hn.
  change (Z.of_nat 1) with 1 in *.
  replace (1 + num_epochs a - 1) with (num_epochs a) in * by lia.
  change ((1 - 1) / eval_epochs a) with (0 / eval_epochs a) in Hmc.
  change ((1 - 1) / checkpoint_epochs a) with (0 / checkpoint_epochs a) in Hsv.
  rewrite Z.div_0_l in Hmc, Hsv by lia.
  split; [lia |]. split; [lia |].
  destruct (epochs_emit env a (range1 (num_epochs a)) w) as (d & Hl & Hd).
  unfold range1 in Hl. rewrite Hrun in Hl. cbn [final] in Hl.
  rewrite Hl, count_events_app.
  rewrite (count_events_none is_destroy _ d (fun e H => H) Hd). lia.
Qed.

(** X16.  On the coordinator, with positive accumulation steps and cadences,
    the epochs 1 to [num_epochs], each with at least as many batches as the
    accumulation steps, all return: the run evaluates
    [num_epochs // eval_epochs] times and saves
    [num_epochs // checkpoint_epochs] checkpoints. *)
Theorem epochs_evaluate_and_save_on_cadence (w : world) :
  IS_MASTER env = true ->
  0 < gradient_accumulation_steps a ->
  0 < eval_epochs a ->
  0 < checkpoint_epochs a ->
  0 <= num_epochs a ->
  (forall epoch, 1 <= epoch <= num_epochs a ->
     gradient_accumulation_steps a <= Z.of_nat (List.length (train_loader a epoch))) ->
  exists w',
    epochs env a (range1 (num_epochs a)) w = Ok tt w' /\
    count_events is_metric_compute (log w') =
      count_events is_metric_compute (log w) + num_epochs a / eval_epochs a /\
    count_events is_save (log w') =
      count_events is_save (log w) + num_epochs a / checkpoint_epochs a.
Proof.
  intros Hm Hgas He Hc Hn Hbatches.
  destruct (epochs_evaluate_and_save_aux w Hm Hgas He Hc Hn Hbatches)
    as (w' & Hrun & Hmc & Hsv & _).
  exists w'. repeat split; assumption.
Qed.

End Completion.

(** ** Worked runs for the further properties *)

Section WorkedMore.

#[local] Existing Instance Toy.torch.

(** Zero accumulation steps on the command line. *)
Lemma main_rejects_zero_steps :
  exists msg,
    main Toy.single (Toy.small 0 16 1) Toy.no_files = Crashed (ValueError msg) [].
Proof.
  apply (main_rejects_bad_counts_first Toy.single (Toy.small 0 16 1) Toy.no_files).
  right. left. reflexivity.
Defined.

(** The default device on a machine without CUDA. *)
Lemma main_without_cuda :
  main {| RANK := -1; LOCAL_RANK := -1; WORLD_SIZE := -1;
          cuda_is_available := false; is_bf16_supported := false |}
       default_args Toy.no_files =
  Crashed (RuntimeError "Cuda is not available.") [].
Proof.
  apply (main_checks_cuda_on_the_given_device
           {| RANK := -1; LOCAL_RANK := -1; WORLD_SIZE := -1;
              cuda_is_available := false; is_bf16_supported := false |}
           default_args Toy.no_files eq_refl eq_refl).
  reflexivity.
Defined.

(** Worker 3 of 4 with the default arguments. *)
Lemma ddp_setup_worker_3_of_4 :
  exists a' later,
    ddp_setup (Toy.worker 3 4) default_args =
      (InitProcessGroup "nccl" 4 :: SetDevice "cuda:3" :: later, inr a') /\
    device a' = "cuda:3"%string /\
    forward_context (Toy.worker 3 4) a' =
      {| device_type := "cuda:3"; autocast_dtype := float32 |}.
Proof.
  apply (ddp_setup_overrides_device (Toy.worker 3 4) default_args).
  - reflexivity.
  - discriminate.
Defined.

(** A seed of 7 on worker 3 of 4. *)
Lemma seeding_worker_3_of_4 :
  exists a',
    snd (ddp_setup (Toy.worker 3 4) (set_seed default_args (Some 7))) = inr a' /\
    seeding a' = [ManualSeed 10].
Proof.
  apply (proj2 (seeding_offsets_by_rank (Toy.worker 3 4)
                  (set_seed default_args (Some 7)))).
  - reflexivity.
  - discriminate.
Defined.


(** Four batches on a worker with two accumulation steps: four backward
    passes, two optimizer steps, one synchronized backward pass. *)
Lemma one_synchronized_backward_of_four :
  exists t w',
    train_batches (T := Toy.torch) (Toy.worker 0 2) (Toy.small 2 16 1) 1
      [(1, 1); (2, 2); (3, 3); (4, 4)] totals0 (Toy.start (Toy.small 2 16 1)) =
      Ok t w' /\
    count_events is_backward (log w') = 4 /\
    optimizer_steps (log w') = 2 /\
    count_events is_synchronized_backward (log w') = 1.
Proof.
  apply (one_synchronized_backward_per_epoch (T := Toy.torch) (Toy.worker 0 2)
           (Toy.small 2 16 1) [(1, 1); (2, 2); (3, 3); (4, 4)]
           (Toy.start (Toy.small 2 16 1))).
  reflexivity.
Defined.

(** Worker 1 of 2 over one epoch. *)
Lemma worker_1_only_trains :
  IS_MASTER (Toy.worker 1 2) = false /\
  files (final (epochs (Toy.worker 1 2) (Toy.small 2 16 1) [1]
                  (Toy.start (Toy.small 2 16 1)))) = Toy.no_files /\
  perplexity_metric (final (epochs (Toy.worker 1 2) (Toy.small 2 16 1) [1]
                              (Toy.start (Toy.small 2 16 1)))) = 0.
Proof.
  split; [reflexivity |].
  destruct (non_coordinator_only_trains (Toy.worker 1 2) (Toy.small 2 16 1) [1]
              (Toy.start (Toy.small 2 16 1)) eq_refl)
    as (_ & Hf & Hp & _).
  split; [exact Hf | exact Hp].
Defined.

(** Epoch 20 of a single-process run with the default cadences. *)
Lemma checkpoint_after_epoch_20 :
  exists w',
    epoch_body Toy.single (Toy.small 2 16 20) 20 (Toy.start (Toy.small 2 16 20)) =
      Ok tt w' /\
    files w' "./out/checkpoint.pt"%string =
      Some {| ck_model := model_state_dict (model w');
              ck_optimizer := optimizer_state_dict (optimizer w');
              ck_model_args := model_args (Toy.small 2 16 20) |}.
Proof.
  apply (checkpoint_holds_end_of_epoch_state Toy.single (Toy.small 2 16 20) 20
           (Toy.start (Toy.small 2 16 20))); try reflexivity; discriminate.
Defined.

(** Twenty epochs with the default cadences: two evaluations, one
    checkpoint. *)
Lemma twenty_epochs_on_cadence :
  exists w',
    epochs Toy.single (Toy.small 2 16 20) (range1 20)
      (Toy.start (Toy.small 2 16 20)) = Ok tt w' /\
    count_events is_metric_compute (log w') = 2 /\
    count_events is_save (log w') = 1.
Proof.
  apply (epochs_evaluate_and_save_on_cadence Toy.single (Toy.small 2 16 20)
           (Toy.start (Toy.small 2 16 20))); try reflexivity.
  - discriminate.
  - intros epoch _. vm_compute. discriminate.
Defined.

(** A checkpoint whose optimizer state does not fit. *)
Lemma resume_unfit_optimizer_small :
  exists msg w',
    resume_checkpoint Toy.resuming
      (construct Toy.resuming (Toy.one_file (Toy.saved 7 (-1))) []) =
      Raise (ValueError msg) w' /\
    model w' = (7, 0) /\ optimizer w' = 0 /\ log w' = [].
Proof.
  apply (resume_with_unfit_optimizer_state Toy.resuming (Toy.saved 7 (-1)) (7, 0)
           (construct Toy.resuming (Toy.one_file (Toy.saved 7 (-1))) []));
    reflexivity.
Defined.

End WorkedMore.
